(** * MATCH-model: power balance and discounted system cost

    A shallow embedding of [match_model/financials.py] and
    [match_model/balancing/load_zones.py].

    Numbers.  The Python code computes on floats; here every quantity is an
    exact rational ([Q], compared with [==]).  Calendar years and period
    lengths are whole numbers of years ([Z]), so that the exponent of [**]
    is an integer and the power stays rational.

    Failure.  Every Python exception the modelled code can raise is a
    constructor of [error]; a function that can raise returns a [result]. *)

From Stdlib Require Import QArith ZArith Qpower Qfield Lia Lqa.
From stdpp Require Import base option list strings gmap.

Local Open Scope Q_scope.
Local Open Scope string_scope.
Local Open Scope list_scope.

(** ** Python exceptions and the error monad *)

Inductive error : Type :=
| AttributeError (name : string)
    (* the model object has no attribute of that name *)
| KeyError (name : string)
    (* an indexed component has no entry at the requested index *)
| ZeroDivisionError
    (* [x / 0], or [0 ** e] with [e < 0] *)
| DomainError (name : string)
    (* Pyomo: a Param value outside its [within=] domain *)
| UndefinedValue (name : string)
    (* Pyomo: reading a scalar Param that has no value and no default *)
| MissingDataError (name : string).
    (* [min_data_check]: a mandatory component has no data *)

Inductive result (A : Type) : Type :=
| Ok (a : A)
| Err (e : error).
Arguments Ok {A} a.
Arguments Err {A} e.

#[global] Instance result_ret : MRet result := fun A a => Ok a.

#[global] Instance result_bind : MBind result := fun A B k r =>
  match r with
  | Ok a => k a
  | Err e => Err e
  end.

Definition is_ok {A : Type} (r : result A) : Prop := exists a, r = Ok a.

(** ** Python arithmetic that can raise *)

(** [a / b] under [from __future__ import division]. *)
Definition py_div (a b : Q) : result Q :=
  if Qeq_bool b 0 then Err ZeroDivisionError else Ok (a / b).

(** [b ** e] for an integer exponent. *)
Definition py_pow (b : Q) (e : Z) : result Q :=
  if Qeq_bool b 0 && (e <? 0)%Z then Err ZeroDivisionError else Ok (b ^ e).

(** [sum(f(x) for x in l)]: the builtin [sum] starts from [0] and adds from
    the left; the generator yields its elements in order, and the first
    exception raised while producing one escapes from [sum]. *)
Fixpoint sum_from {A : Type} (acc : Q) (f : A -> result Q) (l : list A) : result Q :=
  match l with
  | [] => Ok acc
  | a :: l' => v ← f a; sum_from (acc + v) f l'
  end.

Definition sum_over {A : Type} (f : A -> result Q) (l : list A) : result Q :=
  sum_from 0 f l.

(** The mathematical sum the specification writes as a capital sigma. *)
Definition big_sum {A : Type} (f : A -> Q) (l : list A) : Q :=
  fold_right (fun a acc => f a + acc) 0 l.

(** ** The Pyomo model object

    One record stands for the object called [mod], [m] or [instance] in the
    source.  Attribute access by a fixed name is a field projection or a
    lookup under that name; [getattr(m, name)] with a computed name is a
    lookup in the same stores. *)

Record model : Type := Model {
  (* sets and attributes supplied by match_model.timescales *)
  PERIODS : list string;
  TIMEPOINTS : list string;
  TPS_IN_PERIOD : gmap string (list string);
  tp_period : gmap string string;
  period_length_years : gmap string Z;
  (* load_zones.csv *)
  LOAD_ZONES : list string;
  (* financials.csv: scalar Params, [None] when no value was loaded *)
  base_financial_year : option Z;
  dollar_year : option Z;
  discount_rate : option Q;
  (* numeric components with one index (a timepoint or a period) *)
  indexed1 : gmap string (gmap string Q);
  (* numeric components with two indices (zone, timepoint) or (zone, period) *)
  indexed2 : gmap string (gmap (string * string) Q);
  (* attributes holding a plain Python list of component names *)
  lists : gmap string (list string);
  (* names of the components declared so far, in declaration order *)
  declared : list string
}.

Definition set_indexed1 (m : model) (x : gmap string (gmap string Q)) : model :=
  Model (PERIODS m) (TIMEPOINTS m) (TPS_IN_PERIOD m) (tp_period m)
        (period_length_years m) (LOAD_ZONES m) (base_financial_year m)
        (dollar_year m) (discount_rate m) x (indexed2 m) (lists m) (declared m).

Definition set_indexed2 (m : model) (x : gmap string (gmap (string * string) Q)) : model :=
  Model (PERIODS m) (TIMEPOINTS m) (TPS_IN_PERIOD m) (tp_period m)
        (period_length_years m) (LOAD_ZONES m) (base_financial_year m)
        (dollar_year m) (discount_rate m) (indexed1 m) x (lists m) (declared m).

Definition set_lists (m : model) (x : gmap string (list string)) : model :=
  Model (PERIODS m) (TIMEPOINTS m) (TPS_IN_PERIOD m) (tp_period m)
        (period_length_years m) (LOAD_ZONES m) (base_financial_year m)
        (dollar_year m) (discount_rate m) (indexed1 m) (indexed2 m) x (declared m).

(** [mod.name = Param(...)], [Set(...)], [Expression(...)], ...: the name
    becomes an attribute of the model. *)
Definition declare (m : model) (names : list string) : model :=
  Model (PERIODS m) (TIMEPOINTS m) (TPS_IN_PERIOD m) (tp_period m)
        (period_length_years m) (LOAD_ZONES m) (base_financial_year m)
        (dollar_year m) (discount_rate m) (indexed1 m) (indexed2 m) (lists m)
        (declared m ++ names).

(** *** Reading attributes *)

Definition from_option {A : Type} (e : error) (o : option A) : result A :=
  match o with
  | Some a => Ok a
  | None => Err e
  end.

(** [m.name] for a list attribute. *)
Definition get_list (m : model) (name : string) : result (list string) :=
  from_option (AttributeError name) (lists m !! name).

(** [m.name[k]] and [getattr(m, name)[k]]: the attribute is resolved first,
    then indexed. *)
Definition at1 (m : model) (name : string) (k : string) : result Q :=
  c ← from_option (AttributeError name) (indexed1 m !! name);
  from_option (KeyError name) (c !! k).

Definition at2 (m : model) (name : string) (k : string * string) : result Q :=
  c ← from_option (AttributeError name) (indexed2 m !! name);
  from_option (KeyError name) (c !! k).

(** Reading a scalar Param: Pyomo raises when it has no value. *)
Definition scalar {A : Type} (name : string) (v : option A) : result A :=
  from_option (UndefinedValue name) v.

(** *** Dynamic lists *)

(** [mod.name = []] *)
Definition new_list (m : model) (name : string) : model :=
  set_lists m (<[name := []]> (lists m)).

(** [mod.name.append(item)]: the attribute lookup raises when the model has
    no such list; [list.append] itself cannot fail. *)
Definition append (m : model) (name item : string) : result model :=
  l ← get_list m name;
  Ok (set_lists m (<[name := l ++ [item]]> (lists m))).

(** *** Constructing Params *)

(** [within=NonNegativeReals]: Pyomo rejects a value outside the domain. *)
Definition within_NonNegativeReals (name : string) (v : Q) : result unit :=
  if Qle_bool 0 v then Ok tt else Err (DomainError name).

(** [Param(index, within=NonNegativeReals, initialize=rule)]: the rule is
    called on every index in order and each value is validated. *)
Fixpoint init_param {K : Type} `{Countable K} (name : string)
    (rule : K -> result Q) (index : list K) (acc : gmap K Q) : result (gmap K Q) :=
  match index with
  | [] => Ok acc
  | k :: ks =>
      v ← rule k;
      _ ← within_NonNegativeReals name v;
      init_param name rule ks (<[k := v]> acc)
  end.

(** A Param populated from a table: every loaded value is validated. *)
Definition validate_param {K : Type} `{Countable K} (name : string)
    (data : gmap K Q) : result unit :=
  if forallb (fun kv => Qle_bool 0 (snd kv)) (map_to_list data)
  then Ok tt else Err (DomainError name).

Definition validate_scalar (name : string) (v : option Q) : result unit :=
  match v with
  | Some x => within_NonNegativeReals name x
  | None => Ok tt
  end.

(** [A * B] on Pyomo sets: the cross product, first component outermost. *)
Definition cross (A B : list string) : list (string * string) :=
  a ← A; b ← B; [(a, b)].

(** *** min_data_check *)

(** Modelled from the spec: [min_data_check] is defined in
    match_model.utilities, which is not among the sources.  The
    specification says that a mandatory set or parameter with no value for
    a required index is a fatal [MissingDataError] that aborts model
    construction: a mandatory set must have members, a mandatory scalar
    parameter must have a value, and a mandatory indexed parameter must have
    a value at every index of its index set. *)
Definition has_data (m : model) (name : string) : result bool :=
  if String.eqb name "base_financial_year" then Ok (bool_decide (is_Some (base_financial_year m)))
  else if String.eqb name "dollar_year" then Ok (bool_decide (is_Some (dollar_year m)))
  else if String.eqb name "discount_rate" then Ok (bool_decide (is_Some (discount_rate m)))
  else if String.eqb name "LOAD_ZONES" then Ok (negb (bool_decide (LOAD_ZONES m = [])))
  else if String.eqb name "zone_demand_mw" then
    Ok (forallb
          (fun zt => bool_decide (is_Some (default ∅ (indexed2 m !! name) !! zt)))
          (cross (LOAD_ZONES m) (TIMEPOINTS m)))
  else Err (AttributeError name).

(** Modelled from the spec: the mandatory components are checked in the
    order given, and the first one without data aborts the construction. *)
Fixpoint min_data_check (m : model) (mandatory_model_components : list string) : result unit :=
  match mandatory_model_components with
  | [] => Ok tt
  | name :: rest =>
      b ← has_data m name;
      if b : bool then min_data_check m rest else Err (MissingDataError name)
  end.

(** *** Constraints and objectives *)

Inductive constraint : Type :=
| Equality (lhs rhs : Q).

Definition satisfied (c : constraint) : Prop :=
  match c with
  | Equality l r => l == r
  end.

Inductive sense : Type := minimize | maximize.

Record objective : Type := Objective {
  objective_expr : Q;
  objective_sense : sense
}.

(** ** balancing/load_zones.py *)

Module load_zones.

Definition define_dynamic_lists (mdl : model) : model :=
  let mdl := new_list mdl "Zone_Power_Injections" in
  new_list mdl "Zone_Power_Withdrawals".

(** [ZONE_TIMEPOINTS = LOAD_ZONES * TIMEPOINTS] *)
Definition ZONE_TIMEPOINTS (m : model) : list (string * string) :=
  cross (LOAD_ZONES m) (TIMEPOINTS m).

(** What [define_components] does when it runs: it declares its components
    and registers the demand.  The [try] probes for the list of the optional
    local_td module; [except AttributeError] falls back to the zonal list. *)
Definition define_components (mdl : model) : result model :=
  let mdl := declare mdl ["LOAD_ZONES"; "ZONE_TIMEPOINTS"; "zone_demand_mw"] in
  mdl ← match append mdl "Distributed_Power_Withdrawals" "zone_demand_mw" with
        | Err (AttributeError _) =>
            append mdl "Zone_Power_Withdrawals" "zone_demand_mw"
        | r => r
        end;
  Ok (declare mdl ["zone_total_demand_in_period_mwh"]).

(** The [initialize] rule of [zone_total_demand_in_period_mwh]. *)
Definition zone_total_demand_in_period_mwh_rule (m : model) (z p : string) : result Q :=
  tps ← from_option (KeyError "TPS_IN_PERIOD") (TPS_IN_PERIOD m !! p);
  sum_over
    (fun t =>
       d ← at2 m "zone_demand_mw" (z, t);
       w ← at1 m "tp_weight" t;
       Ok (d * w))
    tps.

(** What Pyomo does with the components of [define_components] when the
    instance is created, in declaration order: the demand table is validated
    against its domain, the data check runs, and the derived Param is
    initialised over [LOAD_ZONES * PERIODS]. *)
Definition construct_components (m : model) : result model :=
  _ ← validate_param "zone_demand_mw" (default ∅ (indexed2 m !! "zone_demand_mw"));
  _ ← min_data_check m ["LOAD_ZONES"; "zone_demand_mw"];
  total ← init_param "zone_total_demand_in_period_mwh"
            (fun zp => zone_total_demand_in_period_mwh_rule m (fst zp) (snd zp))
            (cross (LOAD_ZONES m) (PERIODS m)) ∅;
  Ok (set_indexed2 m (<["zone_total_demand_in_period_mwh" := total]> (indexed2 m))).

Definition define_dynamic_components (mdl : model) : model :=
  declare mdl ["Zone_Energy_Balance"].

(** The rule of the constraint [Zone_Energy_Balance], indexed by
    [ZONE_TIMEPOINTS]. *)
Definition Zone_Energy_Balance (m : model) (z t : string) : result constraint :=
  if bool_decide ((z, t) ∈ ZONE_TIMEPOINTS m) then
    injections ← get_list m "Zone_Power_Injections";
    lhs ← sum_over (fun component => at2 m component (z, t)) injections;
    withdrawals ← get_list m "Zone_Power_Withdrawals";
    rhs ← sum_over (fun component => at2 m component (z, t)) withdrawals;
    Ok (Equality lhs rhs)
  else Err (KeyError "Zone_Energy_Balance").

End load_zones.

(** ** financials.py *)

Module financials.

Definition uniform_series_to_present_value (dr : Q) (t : Z) : result Q :=
  if Qeq_bool dr 0 then Ok (inject_Z t)
  else
    p ← py_pow (1 + dr) (- t);
    q ← py_div (1 - p) dr;
    Ok (q * (1 + dr)).

Definition future_to_present_value (dr : Q) (t : Z) : result Q :=
  py_pow (1 + dr) (- t).

Definition present_to_future_value (ir : Q) (t : Z) : result Q :=
  py_pow (1 + ir) t.

Definition define_dynamic_lists (mdl : model) : model :=
  let mdl := new_list mdl "Cost_Components_Per_TP" in
  new_list mdl "Cost_Components_Per_Period".

Definition define_components (mdl : model) : model :=
  declare mdl ["base_financial_year"; "dollar_year"; "discount_rate";
               "bring_annual_costs_to_base_year";
               "bring_timepoint_costs_to_base_year"].

(** The [initialize] rules of the two derived Params. *)
Definition bring_annual_costs_to_base_year_rule (m : model) (p : string) : result Q :=
  dr ← scalar "discount_rate" (discount_rate m);
  n ← from_option (KeyError "period_length_years") (period_length_years m !! p);
  a ← uniform_series_to_present_value dr n;
  dr ← scalar "discount_rate" (discount_rate m);
  dy ← scalar "dollar_year" (dollar_year m);
  by_ ← scalar "base_financial_year" (base_financial_year m);
  b ← future_to_present_value dr (dy - by_);
  Ok (a * b).

Definition bring_timepoint_costs_to_base_year_rule (m : model) (t : string) : result Q :=
  p ← from_option (KeyError "tp_period") (tp_period m !! t);
  b ← at1 m "bring_annual_costs_to_base_year" p;
  w ← at1 m "tp_weight_in_year" t;
  Ok (b * w).

(** What Pyomo does with the components of [define_components] when the
    instance is created, in declaration order: the three scalar Params are
    validated against their domain, the data check runs, and the two derived
    Params are initialised, the second reading the first. *)
Definition construct_components (m : model) : result model :=
  _ ← validate_scalar "base_financial_year" (inject_Z <$> base_financial_year m);
  _ ← validate_scalar "dollar_year" (inject_Z <$> dollar_year m);
  _ ← validate_scalar "discount_rate" (discount_rate m);
  _ ← min_data_check m ["base_financial_year"; "discount_rate"];
  annual ← init_param "bring_annual_costs_to_base_year"
             (bring_annual_costs_to_base_year_rule m) (PERIODS m) ∅;
  let m := set_indexed1 m (<["bring_annual_costs_to_base_year" := annual]> (indexed1 m)) in
  timepoint ← init_param "bring_timepoint_costs_to_base_year"
                (bring_timepoint_costs_to_base_year_rule m) (TIMEPOINTS m) ∅;
  Ok (set_indexed1 m (<["bring_timepoint_costs_to_base_year" := timepoint]> (indexed1 m))).

Definition calc_tp_costs_in_period (m : model) (t : string) : result Q :=
  components ← get_list m "Cost_Components_Per_TP";
  sum_over
    (fun tp_cost =>
       c ← at1 m tp_cost t;
       w ← at1 m "tp_weight_in_year" t;
       Ok (c * w))
    components.

Definition calc_annual_costs_in_period (m : model) (p : string) : result Q :=
  components ← get_list m "Cost_Components_Per_Period";
  sum_over (fun annual_cost => at1 m annual_cost p) components.

Definition calc_sys_costs_per_period (m : model) (p : string) : result Q :=
  annual ← calc_annual_costs_in_period m p;
  tps ← from_option (KeyError "TPS_IN_PERIOD") (TPS_IN_PERIOD m !! p);
  tp ← sum_over (calc_tp_costs_in_period m) tps;
  b ← at1 m "bring_annual_costs_to_base_year" p;
  Ok ((annual + tp) * b).

Definition define_dynamic_components (mdl : model) : model :=
  declare mdl ["SystemCostPerPeriod"; "SystemCost"; "Minimize_System_Cost"].

(** [SystemCostPerPeriod = Expression(PERIODS, rule=calc_sys_costs_per_period)] *)
Definition SystemCostPerPeriod (m : model) (p : string) : result Q :=
  if bool_decide (p ∈ PERIODS m) then calc_sys_costs_per_period m p
  else Err (KeyError "SystemCostPerPeriod").

Definition SystemCost (m : model) : result Q :=
  sum_over (SystemCostPerPeriod m) (PERIODS m).

Definition Minimize_System_Cost (m : model) : result objective :=
  e ← SystemCost m;
  Ok (Objective e minimize).

(** [post_solve]: one row of electricity_cost.csv. *)
Record electricity_cost : Type := ElectricityCost {
  PERIOD : string;
  SystemCostPerPeriod_NPV : Q;
  SystemCostPerPeriod_Real : Q;
  EnergyCostReal_per_MWh : Q;
  SystemDemand_MWh : Q
}.

Definition system_demand (m : model) (p : string) : result Q :=
  sum_over (fun z => at2 m "zone_total_demand_in_period_mwh" (z, p)) (LOAD_ZONES m).

Definition system_cost_real (m : model) (p : string) : result Q :=
  c ← SystemCostPerPeriod m p;
  b ← at1 m "bring_annual_costs_to_base_year" p;
  py_div c b.

Definition energy_cost_real_per_mwh (m : model) (p : string) : result Q :=
  r ← system_cost_real m p;
  d ← system_demand m p;
  py_div r d.

Definition normalized_dat_row (m : model) (p : string) : result electricity_cost :=
  npv ← SystemCostPerPeriod m p;
  real ← system_cost_real m p;
  per_mwh ← energy_cost_real_per_mwh m p;
  demand ← system_demand m p;
  Ok (ElectricityCost p npv real per_mwh demand).

(** The list comprehension over [m.PERIODS]. *)
Fixpoint normalized_dat_rows (m : model) (periods : list string) : result (list electricity_cost) :=
  match periods with
  | [] => Ok []
  | p :: ps =>
      row ← normalized_dat_row m p;
      rows ← normalized_dat_rows m ps;
      Ok (row :: rows)
  end.

Definition normalized_dat (m : model) : result (list electricity_cost) :=
  normalized_dat_rows m (PERIODS m).

End financials.

(** ** Reading the outcome of a computation *)

Definition okb {A : Type} (r : result A) : bool :=
  match r with
  | Ok _ => true
  | Err _ => false
  end.

(** The number a computation yields, [0] when it raises. *)
Definition val (r : result Q) : Q :=
  match r with
  | Ok v => v
  | Err _ => 0
  end.

(** ** What the specification writes

    The sums of the specification, written over the values the components
    have at an index. *)

Module spec.

(** [Σ_c c[z,t]] over a registry of power components *)
Definition power_sum (m : model) (registry : list string) (z t : string) : Q :=
  big_sum (fun c => val (at2 m c (z, t))) registry.

(** [tp_costs(p) = Σ_{t∈TPS_IN_PERIOD[p]} Σ_{c∈per-timepoint-cost-registry} c[t] × weight_in_year[t]] *)
Definition tp_costs (m : model) (p : string) : Q :=
  big_sum
    (fun t =>
       big_sum
         (fun c => val (at1 m c t) * val (at1 m "tp_weight_in_year" t))
         (default [] (lists m !! "Cost_Components_Per_TP")))
    (default [] (TPS_IN_PERIOD m !! p)).

(** [annual_costs(p) = Σ_{c∈per-period-cost-registry} c[p]] *)
Definition annual_costs (m : model) (p : string) : Q :=
  big_sum (fun c => val (at1 m c p))
          (default [] (lists m !! "Cost_Components_Per_Period")).

(** [Σ_{t∈TPS_IN_PERIOD[p]} demand[z,t] * weight[t]] *)
Definition zone_total_demand (m : model) (z p : string) : Q :=
  big_sum
    (fun t => val (at2 m "zone_demand_mw" (z, t)) * val (at1 m "tp_weight" t))
    (default [] (TPS_IN_PERIOD m !! p)).

(** [Σ_z zone_total_demand_in_period_mwh[z,p]] *)
Definition total_zone_demand (m : model) (p : string) : Q :=
  big_sum (fun z => val (at2 m "zone_total_demand_in_period_mwh" (z, p)))
          (LOAD_ZONES m).

End spec.

(** ** Well-formed inputs

    Executable statements of what the collaborators of the two modules
    guarantee: the timescale provider, the data loader and the modules that
    register components. *)

(** The power components registered for the balance are defined at [(z,t)]. *)
Definition power_components_defined (m : model) (z t : string) : bool :=
  bool_decide ((z, t) ∈ load_zones.ZONE_TIMEPOINTS m) &&
  match lists m !! "Zone_Power_Injections", lists m !! "Zone_Power_Withdrawals" with
  | Some injections, Some withdrawals =>
      forallb (fun c => okb (at2 m c (z, t))) (injections ++ withdrawals)
  | _, _ => false
  end.

(** The cost components registered are defined over period [p] and its
    timepoints, with their weights and the discount factor of the period. *)
Definition cost_components_defined (m : model) (p : string) : bool :=
  match lists m !! "Cost_Components_Per_TP",
        lists m !! "Cost_Components_Per_Period",
        TPS_IN_PERIOD m !! p with
  | Some per_tp, Some per_period, Some tps =>
      forallb (fun c => okb (at1 m c p)) per_period &&
      forallb
        (fun t =>
           okb (at1 m "tp_weight_in_year" t) &&
           forallb (fun c => okb (at1 m c t)) per_tp)
        tps &&
      okb (at1 m "bring_annual_costs_to_base_year" p)
  | _, _, _ => false
  end.

Definition nonnegative (r : result Q) : bool :=
  match r with
  | Ok v => Qle_bool 0 v
  | Err _ => false
  end.

(** financials.csv holds the three values, none negative; every period has
    a length, not negative; every timepoint has a period of the model and a
    weight in the year, not negative. *)
Definition financial_inputs_ok (m : model) : bool :=
  match discount_rate m, dollar_year m, base_financial_year m with
  | Some dr, Some dy, Some by_ =>
      Qle_bool 0 dr && (0 <=? dy)%Z && (0 <=? by_)%Z &&
      forallb
        (fun p =>
           match period_length_years m !! p with
           | Some n => (0 <=? n)%Z
           | None => false
           end)
        (PERIODS m) &&
      forallb
        (fun t =>
           match tp_period m !! t with
           | Some p => bool_decide (p ∈ PERIODS m)
           | None => false
           end &&
           nonnegative (at1 m "tp_weight_in_year" t))
        (TIMEPOINTS m)
  | _, _, _ => false
  end.

(** Every period has its timepoints, all of them timepoints of the model
    with a weight that is not negative. *)
Definition timescales_ok (m : model) : bool :=
  forallb
    (fun p =>
       match TPS_IN_PERIOD m !! p with
       | Some tps =>
           forallb
             (fun t => bool_decide (t ∈ TIMEPOINTS m) && nonnegative (at1 m "tp_weight" t))
             tps
       | None => false
       end)
    (PERIODS m).

(** loads.csv passes the checks of the module: no demand is negative,
    there is a zone, and every zone has a demand at every timepoint. *)
Definition load_inputs_ok (m : model) : bool :=
  okb (validate_param "zone_demand_mw" (default ∅ (indexed2 m !! "zone_demand_mw"))) &&
  okb (min_data_check m ["LOAD_ZONES"; "zone_demand_mw"]) &&
  timescales_ok m.

(** No zone has a negative total demand in period [p] ([within=NonNegativeReals]). *)
Definition total_demand_nonnegative (m : model) (p : string) : bool :=
  forallb (fun z => nonnegative (at2 m "zone_total_demand_in_period_mwh" (z, p)))
          (LOAD_ZONES m).

(** ** Instances *)

(** The one-zone instance of the specification: zone Z1, period P1 of one
    year, timepoint T1 standing for the 8760 hours of the year, a demand of
    100 MW, and no discounting. *)
Definition one_zone : model :=
  Model ["P1"] ["T1"] {["P1" := ["T1"]]} {["T1" := "P1"]} {["P1" := 1%Z]}
        ["Z1"] (Some 2020%Z) (Some 2020%Z) (Some 0)
        {["tp_weight" := {["T1" := 8760]};
          "tp_weight_in_year" := {["T1" := 8760]}]}
        {["zone_demand_mw" := {[("Z1", "T1") := 100]}]}
        ∅ [].

(** The same instance with a generating module: its dispatch, an hourly
    cost and a yearly cost are components of the model. *)
Definition one_zone_with_generation : model :=
  set_indexed2
    (set_indexed1 one_zone
       (<["GenVariableCostsInTP" := {["T1" := 3]}]>
          (<["TotalGenFixedCosts" := {["P1" := 5000]}]> (indexed1 one_zone))))
    (<["ZoneTotalCentralDispatch" := {[("Z1", "T1") := 100]}]> (indexed2 one_zone)).

(** What such a module does in its own [define_components]. *)
Definition generation_define_components (mdl : model) : result model :=
  mdl ← append mdl "Zone_Power_Injections" "ZoneTotalCentralDispatch";
  mdl ← append mdl "Cost_Components_Per_TP" "GenVariableCostsInTP";
  append mdl "Cost_Components_Per_Period" "TotalGenFixedCosts".

(** Modelled from the spec: the framework that calls the functions of the
    modules is not among the sources.  Following the lifecycle of the
    specification, the dynamic lists are created, every module defines its
    components and registers, the dynamic components are defined, and the
    instance is constructed. *)
Definition build (inputs : model) (others : model -> result model) : result model :=
  let m := financials.define_dynamic_lists inputs in
  let m := load_zones.define_dynamic_lists m in
  let m := financials.define_components m in
  m ← load_zones.define_components m;
  m ← others m;
  let m := financials.define_dynamic_components m in
  let m := load_zones.define_dynamic_components m in
  m ← financials.construct_components m;
  load_zones.construct_components m.

(** financials.csv without a value for [dollar_year]. *)
Definition no_dollar_year : model :=
  Model (PERIODS one_zone) (TIMEPOINTS one_zone) (TPS_IN_PERIOD one_zone)
        (tp_period one_zone) (period_length_years one_zone) (LOAD_ZONES one_zone)
        (Some 2020%Z) None (Some 0)
        (indexed1 one_zone) (indexed2 one_zone) ∅ [].

(** loads.csv with a demand of zero everywhere, and nothing dispatched. *)
Definition no_demand : model :=
  set_indexed2 one_zone_with_generation
    (<["zone_demand_mw" := {[("Z1", "T1") := 0]}]>
       (<["ZoneTotalCentralDispatch" := {[("Z1", "T1") := 0]}]>
          (indexed2 one_zone_with_generation))).

(** The instance a build yields. *)
Definition instance_of (built : result model) : model :=
  match built with
  | Ok m => m
  | Err _ => Model [] [] ∅ ∅ ∅ [] None None None ∅ ∅ ∅ []
  end.

Definition one_zone_instance : model :=
  instance_of (build one_zone Ok).

Definition generation_instance : model :=
  instance_of (build one_zone_with_generation generation_define_components).

Definition no_demand_instance : model :=
  instance_of (build no_demand generation_define_components).

(** ** post_solve: the exported tables *)

(** A list comprehension [[f(x) for x in l]] whose body can raise. *)
Fixpoint comprehension {A B : Type} (f : A -> result B) (l : list A) : result (list B) :=
  match l with
  | [] => Ok []
  | a :: l' =>
      b ← f a;
      bs ← comprehension f l';
      Ok (b :: bs)
  end.

(** financials.py, [post_solve]: the rows of costs_itemized.csv and the two
    tables handed to pandas. *)
Module financials_post_solve.

Record itemized_cost : Type := ItemizedCost {
  PERIOD : string;
  Component : string;
  Component_type : string;
  AnnualCost_NPV : Q;
  AnnualCost_Real : Q
}.

Definition annual_item (m : model) (p annual_cost : string) : result itemized_cost :=
  c ← at1 m annual_cost p;
  b ← at1 m "bring_annual_costs_to_base_year" p;
  real ← at1 m annual_cost p;
  Ok (ItemizedCost p annual_cost "annual" (c * b) real).

(** [sum(getattr(m, tp_cost)[t] * m.tp_weight_in_year[t] for t in m.TPS_IN_PERIOD[p])] *)
Definition tp_cost_in_year (m : model) (p tp_cost : string) : result Q :=
  tps ← from_option (KeyError "TPS_IN_PERIOD") (TPS_IN_PERIOD m !! p);
  sum_over
    (fun t =>
       c ← at1 m tp_cost t;
       w ← at1 m "tp_weight_in_year" t;
       Ok (c * w))
    tps.

Definition timepoint_item (m : model) (p tp_cost : string) : result itemized_cost :=
  s ← tp_cost_in_year m p tp_cost;
  b ← at1 m "bring_annual_costs_to_base_year" p;
  real ← tp_cost_in_year m p tp_cost;
  Ok (ItemizedCost p tp_cost "timepoint" (s * b) real).

(** The two comprehensions [for p in m.PERIODS for c in m.<list>], joined
    with [+]. *)
Definition annualized_costs (m : model) : result (list itemized_cost) :=
  annual ← comprehension
             (fun p =>
                components ← get_list m "Cost_Components_Per_Period";
                comprehension (annual_item m p) components)
             (PERIODS m);
  timepoint ← comprehension
                (fun p =>
                   components ← get_list m "Cost_Components_Per_TP";
                   comprehension (timepoint_item m p) components)
                (PERIODS m);
  Ok (concat annual ++ concat timepoint).

Definition post_solve (m : model)
  : result (list financials.electricity_cost * list itemized_cost) :=
  normalized ← financials.normalized_dat m;
  annualized ← annualized_costs m;
  Ok (normalized, annualized).

End financials_post_solve.

(** load_zones.py, [post_solve]: the headings and the row of
    load_balance.csv handed to [write_table]. *)
Module load_zones_post_solve.

Inductive cell : Type :=
| Text (s : string)
| Number (v : Q).


(** The [values] function.  [tp_timestamp] is the table of labels of the
    timescale provider, which the model record does not carry. *)
Definition values (tp_timestamp : gmap string string) (m : model) (z t : string)
  : result (list cell) :=
  timestamp ← from_option (KeyError "tp_timestamp") (tp_timestamp !! t);
  injections ← get_list m "Zone_Power_Injections";
  withdrawals ← get_list m "Zone_Power_Withdrawals";
  components ← comprehension (fun component => at2 m component (z, t))
                             (injections ++ withdrawals);
  excess ← at2 m "ZoneTotalExcessGen" (z, t);
  Ok ([Text z; Text timestamp] ++ map Number components ++ [Number excess]).

End load_zones_post_solve.

(** The instance with generation, seven percent discounting, a period of
    ten years and costs entered in dollars of ten years after the base
    year. *)
Definition ten_year_inputs : model :=
  Model (PERIODS one_zone_with_generation) (TIMEPOINTS one_zone_with_generation)
        (TPS_IN_PERIOD one_zone_with_generation) (tp_period one_zone_with_generation)
        {["P1" := 10%Z]} (LOAD_ZONES one_zone_with_generation)
        (Some 2020%Z) (Some 2030%Z) (Some (7 # 100))
        (indexed1 one_zone_with_generation)
        (<["ZoneTotalExcessGen" := {[("Z1", "T1") := 0]}]>
           (indexed2 one_zone_with_generation))
        ∅ [].

Definition ten_year_instance : model :=
  instance_of (build ten_year_inputs generation_define_components).

(** The ten-year instance with a second hourly cost and an excess
    generation term registered as an injection. *)
Definition two_cost_instance : model :=
  set_lists
    (set_indexed1 ten_year_instance
       (<["FuelCostsPerTP" := {["T1" := 2]}]> (indexed1 ten_year_instance)))
    (<["Zone_Power_Injections" := ["ZoneTotalCentralDispatch"; "ZoneTotalExcessGen"]]>
       (<["Cost_Components_Per_TP" := ["GenVariableCostsInTP"; "FuelCostsPerTP"]]>
          (lists ten_year_instance))).

(** ** Classifying what the model has and what went wrong *)

(** The specification's [MissingDataError]: a mandatory parameter has no
    value.  The code meets it in two places, the data check for the
    parameters it names and Pyomo's refusal to read a Param without a value
    while a rule is evaluated; either one aborts the construction of the
    instance.  [missing_data e] is the parameter such an error names. *)
Definition missing_data (e : error) : option string :=
  match e with
  | MissingDataError name => Some name
  | UndefinedValue name => Some name
  | _ => None
  end.


(** * Properties *)

(** ** The error monad *)

Lemma bind_Ok {A B : Type} (a : A) (k : A -> result B) : (x ← Ok a; k x) = k a.
Proof. reflexivity. Qed.

Lemma bind_Err {A B : Type} (e : error) (k : A -> result B) : (x ← Err e; k x) = Err e.
Proof. reflexivity. Qed.

Lemma okb_true {A : Type} (r : result A) : okb r = true -> exists a, r = Ok a.
Proof. destruct r as [a|e]; [eauto | discriminate]. Qed.

Lemma okb_val (r : result Q) : okb r = true -> r = Ok (val r).
Proof. destruct r; [reflexivity | discriminate]. Qed.

Ltac ok_step H := rewrite H; rewrite bind_Ok.

(** ** Sums *)

Section Sums.
Context {A : Type}.
Implicit Types (f : A -> result Q) (g : A -> Q) (l : list A).

Lemma big_sum_ext g g' l :
  (forall a, a ∈ l -> g a == g' a) -> big_sum g l == big_sum g' l.
Proof.
  induction l as [|a l IH]; intros Hext; simpl; [reflexivity|].
  rewrite (Hext a) by apply list_elem_of_here.
  rewrite IH; [reflexivity|].
  intros b Hb. apply Hext. by apply list_elem_of_further.
Qed.

Lemma big_sum_app g l1 l2 :
  big_sum g (l1 ++ l2) == big_sum g l1 + big_sum g l2.
Proof.
  induction l1 as [|a l1 IH]; simpl; [ring|]. rewrite IH. ring.
Qed.

Lemma big_sum_nonneg g l :
  (forall a, a ∈ l -> 0 <= g a) -> 0 <= big_sum g l.
Proof.
  induction l as [|a l IH]; intros Hpos; simpl; [apply Qle_refl|].
  assert (0 <= g a) by apply Hpos, list_elem_of_here.
  assert (0 <= big_sum g l).
  { apply IH. intros b Hb. apply Hpos. by apply list_elem_of_further. }
  lra.
Qed.

Lemma big_sum_zero g l :
  (forall a, a ∈ l -> g a == 0) -> big_sum g l == 0.
Proof.
  induction l as [|a l IH]; intros Hz; simpl; [reflexivity|].
  rewrite (Hz a) by apply list_elem_of_here.
  rewrite IH; [ring|].
  intros b Hb. apply Hz. by apply list_elem_of_further.
Qed.

(** The running total of Python's [sum] against the mathematical sum. *)
Lemma sum_from_spec f g l : forall acc,
  (forall a, a ∈ l -> exists v, f a = Ok v /\ v == g a) ->
  exists s, sum_from acc f l = Ok s /\ s == acc + big_sum g l.
Proof.
  induction l as [|a l IH]; intros acc Hdef; simpl.
  - exists acc. split; [reflexivity | ring].
  - destruct (Hdef a) as (v & Hv & Hvg); [apply list_elem_of_here|].
    ok_step Hv.
    destruct (IH (acc + v)) as (s & Hs & Hsum).
    { intros b Hb. apply Hdef. by apply list_elem_of_further. }
    exists s. split; [exact Hs|]. rewrite Hsum, Hvg. ring.
Qed.

Lemma sum_over_spec f g l :
  (forall a, a ∈ l -> exists v, f a = Ok v /\ v == g a) ->
  exists s, sum_over f l = Ok s /\ s == big_sum g l.
Proof.
  intros Hdef. destruct (sum_from_spec f g l 0 Hdef) as (s & Hs & Hsum).
  exists s. split; [exact Hs|]. rewrite Hsum. ring.
Qed.

Lemma sum_over_val f l :
  forallb (fun a => okb (f a)) l = true ->
  exists s, sum_over f l = Ok s /\ s == big_sum (fun a => val (f a)) l.
Proof.
  intros Hok. apply sum_over_spec. intros a Ha.
  rewrite forallb_forall in Hok.
  exists (val (f a)). split; [|reflexivity].
  apply okb_val, Hok. by apply list_elem_of_In.
Qed.

(** A failing element makes the whole sum fail with the first error. *)
Lemma sum_from_ok_inv f l : forall acc s,
  sum_from acc f l = Ok s -> forall a, a ∈ l -> okb (f a) = true.
Proof.
  induction l as [|a l IH]; intros acc s Hs b Hb.
  - by apply not_elem_of_nil in Hb.
  - simpl in Hs. destruct (f a) as [v|e] eqn:Hfa; [|discriminate].
    rewrite bind_Ok in Hs.
    apply elem_of_cons in Hb as [->|Hb]; [by rewrite Hfa|].
    by apply (IH _ _ Hs).
Qed.
End Sums.

(** ** The time-value functions *)

Section TimeValue.
Import financials.

Lemma py_pow_ok (b : Q) (e : Z) : ~ b == 0 -> py_pow b e = Ok (b ^ e).
Proof.
  intros Hb. unfold py_pow.
  destruct (Qeq_bool b 0) eqn:E; [|reflexivity].
  apply Qeq_bool_eq in E. contradiction.
Qed.

Lemma py_pow_nonneg_exponent (b : Q) (e : Z) : (0 <= e)%Z -> py_pow b e = Ok (b ^ e).
Proof.
  intros He. unfold py_pow.
  replace (e <? 0)%Z with false by (symmetry; apply Z.ltb_ge; exact He).
  by rewrite andb_false_r.
Qed.

Lemma py_pow_zero_negative (b : Q) (e : Z) :
  b == 0 -> (e < 0)%Z -> py_pow b e = Err ZeroDivisionError.
Proof.
  intros Hb He. unfold py_pow.
  apply Qeq_bool_iff in Hb. rewrite Hb.
  apply Z.ltb_lt in He. by rewrite He.
Qed.

Lemma py_div_ok (a b : Q) : ~ b == 0 -> py_div a b = Ok (a / b).
Proof.
  intros Hb. unfold py_div.
  destruct (Qeq_bool b 0) eqn:E; [|reflexivity].
  apply Qeq_bool_eq in E. contradiction.
Qed.

Lemma py_div_zero (a b : Q) : b == 0 -> py_div a b = Err ZeroDivisionError.
Proof. intros Hb. unfold py_div. apply Qeq_bool_iff in Hb. by rewrite Hb. Qed.

Lemma growth_factor_nonzero (r : Q) : 0 <= r -> ~ 1 + r == 0.
Proof. intros Hr Hz. lra. Qed.

(** In exact arithmetic discounting undoes compounding whenever the power
    is defined, whatever the sign of the horizon. *)
Lemma discount_compound_cancel (b : Q) (n : Z) : ~ b == 0 -> b ^ (- n) * b ^ n == 1.
Proof.
  intros Hb. rewrite Qpower_opp. rewrite Qmult_comm.
  apply Qmult_inv_r. by apply Qpower_not_0.
Qed.

Lemma uniform_series_zero_rate (dr : Q) (t : Z) :
  dr == 0 -> uniform_series_to_present_value dr t = Ok (inject_Z t).
Proof.
  intros Hdr. unfold uniform_series_to_present_value.
  apply Qeq_bool_iff in Hdr. by rewrite Hdr.
Qed.

Lemma uniform_series_nonzero_rate (dr : Q) (t : Z) :
  ~ dr == 0 -> (~ 1 + dr == 0 \/ (t <= 0)%Z) ->
  uniform_series_to_present_value dr t
  = Ok ((1 - (1 + dr) ^ (- t)) / dr * (1 + dr)).
Proof.
  intros Hdr Hdef. unfold uniform_series_to_present_value.
  destruct (Qeq_bool dr 0) eqn:E; [apply Qeq_bool_eq in E; contradiction|].
  assert (py_pow (1 + dr) (- t) = Ok ((1 + dr) ^ (- t))) as ->.
  { destruct Hdef as [Hb|Ht]; [by apply py_pow_ok|].
    apply py_pow_nonneg_exponent. lia. }
  rewrite bind_Ok. rewrite py_div_ok by exact Hdr. reflexivity.
Qed.

(** Where the formula itself is undefined, a zero base raised to a negative
    power, the code raises as the formula does. *)
Lemma uniform_series_undefined (dr : Q) (t : Z) :
  1 + dr == 0 -> (0 < t)%Z ->
  uniform_series_to_present_value dr t = Err ZeroDivisionError.
Proof.
  intros Hb Ht. unfold uniform_series_to_present_value.
  destruct (Qeq_bool dr 0) eqn:E.
  { apply Qeq_bool_eq in E. lra. }
  rewrite py_pow_zero_negative; [reflexivity | exact Hb | lia].
Qed.

(** C4: at a zero rate [uniform_series_to_present_value] returns the number
    of periods through its explicit branch, so no division by zero is
    raised there; at any other rate it returns
    [(1 - (1+r)^(-n)) / r * (1+r)], wherever that formula is defined. *)
Theorem uniform_series_to_present_value_formula :
  (forall n : Z, uniform_series_to_present_value 0 n = Ok (inject_Z n)) /\
  (forall (r : Q) (n : Z),
      ~ r == 0 -> (~ 1 + r == 0 \/ (n <= 0)%Z) ->
      uniform_series_to_present_value r n
      = Ok ((1 - (1 + r) ^ (- n)) / r * (1 + r))) /\
  (forall (r : Q) (n : Z),
      r == 0 ->
      uniform_series_to_present_value r n = Ok (inject_Z n) /\
      uniform_series_to_present_value r n <> Err ZeroDivisionError).
Proof.
  split; [|split].
  - intros n. by apply uniform_series_zero_rate.
  - apply uniform_series_nonzero_rate.
  - intros r n Hr. rewrite (uniform_series_zero_rate r n Hr). by split.
Qed.

Lemma uniform_series_to_present_value_formula_witness :
  uniform_series_to_present_value (7 # 100) 10
  = Ok ((1 - (1 + (7 # 100)) ^ (- 10)) / (7 # 100) * (1 + (7 # 100))).
Proof.
  apply (proj1 (proj2 uniform_series_to_present_value_formula) (7 # 100) 10%Z).
  - intros H. discriminate H.
  - left. intros H. discriminate H.
Defined.

(** C8: for every rate [r >= 0] and horizon [n >= 1], both conversions
    return, and the discount factor times the compounding factor is
    exactly [1] over the rationals. *)
Theorem future_present_value_inverse (r : Q) (n : Z) :
  0 <= r -> (1 <= n)%Z ->
  exists a b,
    future_to_present_value r n = Ok a /\
    present_to_future_value r n = Ok b /\
    a * b == 1.
Proof.
  intros Hr _. pose proof (growth_factor_nonzero r Hr) as Hb.
  exists ((1 + r) ^ (- n)), ((1 + r) ^ n).
  unfold future_to_present_value, present_to_future_value.
  rewrite !py_pow_ok by exact Hb.
  split; [reflexivity|]. split; [reflexivity|].
  by apply discount_compound_cancel.
Qed.

Lemma future_present_value_inverse_witness :
  exists a b,
    future_to_present_value (7 # 100) 10 = Ok a /\
    present_to_future_value (7 # 100) 10 = Ok b /\
    a * b == 1.
Proof.
  apply (future_present_value_inverse (7 # 100) 10%Z).
  - unfold Qle. simpl. lia.
  - lia.
Defined.
End TimeValue.

(** ** The power balance *)

Section PowerBalance.
Import load_zones.

Lemma forallb_elem_of {A : Type} (P : A -> bool) (l : list A) (a : A) :
  forallb P l = true -> a ∈ l -> P a = true.
Proof.
  intros HP Ha. rewrite forallb_forall in HP. apply HP. by apply list_elem_of_In.
Qed.

Lemma sum_of_registry (m : model) (registry : list string) (z t : string) :
  forallb (fun c => okb (at2 m c (z, t))) registry = true ->
  exists s,
    sum_over (fun component => at2 m component (z, t)) registry = Ok s /\
    s == spec.power_sum m registry z t.
Proof. intros Hdef. by apply sum_over_val. Qed.

(** C1: at every zone and timepoint the rule of [Zone_Energy_Balance]
    returns the equality whose left side is the sum of the registered
    injections at [(z,t)] and whose right side is the sum of the registered
    withdrawals at [(z,t)]. *)
Theorem zone_energy_balance_is_sum_equality (m : model) (z t : string) :
  power_components_defined m z t = true ->
  exists injections withdrawals lhs rhs,
    lists m !! "Zone_Power_Injections" = Some injections /\
    lists m !! "Zone_Power_Withdrawals" = Some withdrawals /\
    Zone_Energy_Balance m z t = Ok (Equality lhs rhs) /\
    lhs == spec.power_sum m injections z t /\
    rhs == spec.power_sum m withdrawals z t /\
    (satisfied (Equality lhs rhs) <->
     spec.power_sum m injections z t == spec.power_sum m withdrawals z t).
Proof.
  unfold power_components_defined. intros Hdef.
  apply andb_prop in Hdef as [Hzt Hdef].
  destruct (lists m !! "Zone_Power_Injections") as [injections|] eqn:Hinj;
    [|discriminate].
  destruct (lists m !! "Zone_Power_Withdrawals") as [withdrawals|] eqn:Hwd;
    [|discriminate].
  rewrite forallb_app in Hdef. apply andb_prop in Hdef as [Hi Hw].
  destruct (sum_of_registry m injections z t Hi) as (lhs & Hlhs & Hl).
  destruct (sum_of_registry m withdrawals z t Hw) as (rhs & Hrhs & Hr).
  exists injections, withdrawals, lhs, rhs.
  split; [reflexivity|]. split; [reflexivity|].
  split; [|split; [exact Hl|split; [exact Hr|]]].
  - unfold Zone_Energy_Balance. rewrite Hzt.
    unfold get_list. rewrite Hinj, Hwd. simpl.
    rewrite Hlhs. simpl. rewrite Hrhs. reflexivity.
  - simpl. rewrite Hl, Hr. reflexivity.
Qed.

Lemma zone_energy_balance_is_sum_equality_witness :
  exists injections withdrawals lhs rhs,
    lists generation_instance !! "Zone_Power_Injections" = Some injections /\
    lists generation_instance !! "Zone_Power_Withdrawals" = Some withdrawals /\
    Zone_Energy_Balance generation_instance "Z1" "T1" = Ok (Equality lhs rhs) /\
    lhs == spec.power_sum generation_instance injections "Z1" "T1" /\
    rhs == spec.power_sum generation_instance withdrawals "Z1" "T1" /\
    (satisfied (Equality lhs rhs) <->
     spec.power_sum generation_instance injections "Z1" "T1"
     == spec.power_sum generation_instance withdrawals "Z1" "T1").
Proof.
  apply (zone_energy_balance_is_sum_equality generation_instance "Z1" "T1").
  vm_compute. reflexivity.
Defined.

End PowerBalance.

(** ** The system cost *)

Section SystemCost.
Import financials.

Lemma tp_costs_of_timepoint (m : model) (t : string) (per_tp : list string) :
  lists m !! "Cost_Components_Per_TP" = Some per_tp ->
  okb (at1 m "tp_weight_in_year" t) = true ->
  forallb (fun c => okb (at1 m c t)) per_tp = true ->
  exists v,
    calc_tp_costs_in_period m t = Ok v /\
    v == big_sum
           (fun c => val (at1 m c t) * val (at1 m "tp_weight_in_year" t)) per_tp.
Proof.
  intros Hlist Hw Hc. unfold calc_tp_costs_in_period, get_list.
  rewrite Hlist. simpl. apply sum_over_spec. intros c Hin.
  exists (val (at1 m c t) * val (at1 m "tp_weight_in_year" t)).
  split; [|reflexivity].
  rewrite (okb_val _ (forallb_elem_of _ _ _ Hc Hin)), bind_Ok.
  rewrite (okb_val _ Hw), bind_Ok. reflexivity.
Qed.

Lemma annual_costs_of_period (m : model) (p : string) (per_period : list string) :
  lists m !! "Cost_Components_Per_Period" = Some per_period ->
  forallb (fun c => okb (at1 m c p)) per_period = true ->
  exists v, calc_annual_costs_in_period m p = Ok v /\ v == spec.annual_costs m p.
Proof.
  intros Hlist Hc. unfold calc_annual_costs_in_period, get_list, spec.annual_costs.
  rewrite Hlist. simpl. by apply sum_over_val.
Qed.

Lemma sys_costs_of_period (m : model) (p : string) :
  cost_components_defined m p = true ->
  exists v,
    calc_sys_costs_per_period m p = Ok v /\
    v == (spec.annual_costs m p + spec.tp_costs m p)
         * val (at1 m "bring_annual_costs_to_base_year" p).
Proof.
  unfold cost_components_defined. intros Hdef.
  destruct (lists m !! "Cost_Components_Per_TP") as [per_tp|] eqn:Htp;
    [|discriminate].
  destruct (lists m !! "Cost_Components_Per_Period") as [per_period|] eqn:Hpp;
    [|discriminate].
  destruct (TPS_IN_PERIOD m !! p) as [tps|] eqn:Htps; [|discriminate].
  apply andb_prop in Hdef as [Hdef Hb]. apply andb_prop in Hdef as [Ha Ht].
  destruct (annual_costs_of_period m p per_period Hpp Ha) as (a & Hcalc_a & Hspec_a).
  assert (exists s, sum_over (calc_tp_costs_in_period m) tps = Ok s /\
                    s == spec.tp_costs m p) as (s & Hcalc_s & Hspec_s).
  { unfold spec.tp_costs. rewrite Htp, Htps. simpl.
    apply sum_over_spec. intros t Hin.
    pose proof (forallb_elem_of _ _ _ Ht Hin) as Hone.
    apply andb_prop in Hone as [Hw Hc].
    by apply tp_costs_of_timepoint. }
  exists ((a + s) * val (at1 m "bring_annual_costs_to_base_year" p)). split.
  - unfold calc_sys_costs_per_period. rewrite Hcalc_a, bind_Ok.
    rewrite Htps. simpl. rewrite Hcalc_s, bind_Ok.
    rewrite (okb_val _ Hb) at 1. reflexivity.
  - rewrite Hspec_a, Hspec_s. reflexivity.
Qed.

(** C2: the system cost of every period is the yearly costs plus the
    weighted hourly costs of its timepoints, times the discount factor of
    the period; [SystemCost] is the sum of these over the periods; and the
    objective minimises [SystemCost]. *)
Theorem system_cost_is_discounted_sum (m : model) :
  forallb (cost_components_defined m) (PERIODS m) = true ->
  (forall p, p ∈ PERIODS m ->
     exists v,
       SystemCostPerPeriod m p = Ok v /\
       v == (spec.annual_costs m p + spec.tp_costs m p)
            * val (at1 m "bring_annual_costs_to_base_year" p)) /\
  (exists total,
     SystemCost m = Ok total /\
     total == big_sum (fun p => val (SystemCostPerPeriod m p)) (PERIODS m) /\
     Minimize_System_Cost m = Ok (Objective total minimize)).
Proof.
  intros Hdef.
  assert (forall p, p ∈ PERIODS m ->
            exists v,
              SystemCostPerPeriod m p = Ok v /\
              v == (spec.annual_costs m p + spec.tp_costs m p)
                   * val (at1 m "bring_annual_costs_to_base_year" p)) as Hper.
  { intros p Hp. unfold SystemCostPerPeriod.
    rewrite bool_decide_eq_true_2 by exact Hp.
    apply sys_costs_of_period. by apply (forallb_elem_of _ _ _ Hdef). }
  split; [exact Hper|].
  destruct (sum_over_spec (SystemCostPerPeriod m)
              (fun p => val (SystemCostPerPeriod m p)) (PERIODS m))
    as (total & Htotal & Hsum).
  { intros p Hp. destruct (Hper p Hp) as (v & Hv & _).
    exists v. split; [exact Hv|]. rewrite Hv. reflexivity. }
  exists total. split; [exact Htotal|]. split; [exact Hsum|].
  unfold Minimize_System_Cost. unfold SystemCost in Htotal |- *.
  rewrite Htotal. reflexivity.
Qed.

Lemma system_cost_is_discounted_sum_witness :
  (forall p, p ∈ PERIODS generation_instance ->
     exists v,
       SystemCostPerPeriod generation_instance p = Ok v /\
       v == (spec.annual_costs generation_instance p
             + spec.tp_costs generation_instance p)
            * val (at1 generation_instance "bring_annual_costs_to_base_year" p)) /\
  (exists total,
     SystemCost generation_instance = Ok total /\
     total == big_sum (fun p => val (SystemCostPerPeriod generation_instance p))
                      (PERIODS generation_instance) /\
     Minimize_System_Cost generation_instance = Ok (Objective total minimize)).
Proof.
  apply (system_cost_is_discounted_sum generation_instance).
  vm_compute. reflexivity.
Defined.

End SystemCost.

(** ** Constructing Params *)

Section Params.
Context {K : Type} `{Countable K}.
Implicit Types (rule : K -> result Q) (index : list K) (acc : gmap K Q).

Lemma nonnegative_ok (r : result Q) :
  nonnegative r = true -> r = Ok (val r) /\ 0 <= val r.
Proof.
  destruct r as [v|e]; simpl; [|discriminate].
  intros Hv. split; [reflexivity|]. by apply Qle_bool_imp_le.
Qed.

Lemma within_nonnegative (name : string) (v : Q) :
  0 <= v -> within_NonNegativeReals name v = Ok tt.
Proof.
  intros Hv. unfold within_NonNegativeReals.
  apply Qle_bool_iff in Hv. by rewrite Hv.
Qed.

Lemma within_negative (name : string) (v : Q) :
  v < 0 -> within_NonNegativeReals name v = Err (DomainError name).
Proof.
  intros Hv. unfold within_NonNegativeReals.
  destruct (Qle_bool 0 v) eqn:E; [|reflexivity].
  apply Qle_bool_imp_le in E. lra.
Qed.

(** When the rule returns a value of the domain at every index, the Param
    is constructed and holds exactly the values of the rule. *)
Lemma init_param_spec (name : string) rule index : forall acc,
  (forall k, k ∈ index -> nonnegative (rule k) = true) ->
  exists values,
    init_param name rule index acc = Ok values /\
    (forall k, k ∈ index -> values !! k = Some (val (rule k))) /\
    (forall k, k ∉ index -> values !! k = acc !! k).
Proof.
  induction index as [|k0 ks IH]; intros acc Hrule; simpl.
  - exists acc. split; [reflexivity|]. split; [|reflexivity].
    intros k Hk. by apply not_elem_of_nil in Hk.
  - destruct (nonnegative_ok (rule k0)) as [Hk0 Hpos];
      [apply Hrule, list_elem_of_here|].
    rewrite Hk0, bind_Ok. rewrite within_nonnegative by exact Hpos.
    rewrite bind_Ok.
    destruct (IH (<[k0 := val (rule k0)]> acc)) as (values & Hinit & Hin & Hout).
    { intros k Hk. apply Hrule. by apply list_elem_of_further. }
    exists values. split; [exact Hinit|]. split.
    + intros k Hk. destruct (decide (k ∈ ks)) as [Hks|Hks]; [by apply Hin|].
      apply elem_of_cons in Hk as [->|Hk]; [|contradiction].
      rewrite (Hout k0 Hks). apply lookup_insert_eq.
    + intros k Hk. apply not_elem_of_cons in Hk as [Hne Hks].
      rewrite (Hout k Hks). by apply lookup_insert_ne.
Qed.

(** Conversely a constructed Param went through the rule and the domain
    check at every index. *)
Lemma init_param_inv (name : string) rule index : forall acc values,
  init_param name rule index acc = Ok values ->
  forall k, k ∈ index ->
    nonnegative (rule k) = true /\ values !! k = Some (val (rule k)).
Proof.
  induction index as [|k0 ks IH]; intros acc values Hinit k Hk.
  - by apply not_elem_of_nil in Hk.
  - simpl in Hinit.
    destruct (rule k0) as [v0|e] eqn:Hk0; [|discriminate].
    rewrite bind_Ok in Hinit. unfold within_NonNegativeReals in Hinit.
    destruct (Qle_bool 0 v0) eqn:Hpos; [|discriminate].
    rewrite bind_Ok in Hinit.
    assert (forall k', k' ∈ ks -> nonnegative (rule k') = true) as Hks.
    { intros k' Hk'. by apply (IH _ _ Hinit). }
    destruct (init_param_spec name rule ks (<[k0 := v0]> acc) Hks)
      as (values' & Hinit' & Hin & Hout).
    rewrite Hinit in Hinit'. injection Hinit' as <-.
    destruct (decide (k ∈ ks)) as [Hin_ks|Hnot].
    + split; [by apply Hks | by apply Hin].
    + apply elem_of_cons in Hk as [->|Hk]; [|contradiction].
      rewrite Hk0. simpl. split; [exact Hpos|].
      rewrite (Hout k0 Hnot). apply lookup_insert_eq.
Qed.

End Params.

Lemma elem_of_cross (A B : list string) (a b : string) :
  (a, b) ∈ cross A B <-> a ∈ A /\ b ∈ B.
Proof.
  unfold cross. rewrite list_elem_of_bind. split.
  - intros (a' & Hab & Ha). apply list_elem_of_bind in Hab as (b' & Hab & Hb).
    apply list_elem_of_singleton in Hab. by injection Hab as -> ->.
  - intros [Ha Hb]. exists a. split; [|exact Ha].
    apply list_elem_of_bind. exists b. split; [|exact Hb].
    by apply list_elem_of_singleton.
Qed.

Lemma at1_stored (m : model) (name : string) (c : gmap string Q) (k : string) :
  at1 (set_indexed1 m (<[name := c]> (indexed1 m))) name k
  = from_option (KeyError name) (c !! k).
Proof. unfold at1. simpl. by rewrite lookup_insert_eq. Qed.

Lemma at1_other (m : model) (name name' : string) (c : gmap string Q) (k : string) :
  name <> name' ->
  at1 (set_indexed1 m (<[name := c]> (indexed1 m))) name' k = at1 m name' k.
Proof. intros Hne. unfold at1. simpl. by rewrite lookup_insert_ne. Qed.

Lemma at2_stored (m : model) (name : string) (c : gmap (string * string) Q)
    (k : string * string) :
  at2 (set_indexed2 m (<[name := c]> (indexed2 m))) name k
  = from_option (KeyError name) (c !! k).
Proof. unfold at2. simpl. by rewrite lookup_insert_eq. Qed.

Lemma at2_other (m : model) (name name' : string) (c : gmap (string * string) Q)
    (k : string * string) :
  name <> name' ->
  at2 (set_indexed2 m (<[name := c]> (indexed2 m))) name' k = at2 m name' k.
Proof. intros Hne. unfold at2. simpl. by rewrite lookup_insert_ne. Qed.

(** ** The discount factors *)

Section DiscountFactors.
Import financials.

Lemma inject_Z_nonneg (z : Z) : (0 <= z)%Z -> 0 <= inject_Z z.
Proof. intros Hz. unfold Qle. simpl. lia. Qed.

Lemma uniform_series_nonneg (dr : Q) (n : Z) :
  0 <= dr -> (0 <= n)%Z ->
  exists a, uniform_series_to_present_value dr n = Ok a /\ 0 <= a.
Proof.
  intros Hdr Hn. destruct (Qeq_dec dr 0) as [Hz|Hnz].
  - exists (inject_Z n). split; [by apply uniform_series_zero_rate|].
    by apply inject_Z_nonneg.
  - eexists. split.
    { apply uniform_series_nonzero_rate; [exact Hnz|].
      left. by apply growth_factor_nonzero. }
    assert (0 < dr) as Hpos.
    { apply Qle_lteq in Hdr as [Hlt|Heq]; [exact Hlt|].
      exfalso. apply Hnz. by symmetry. }
    assert ((1 + dr) ^ (- n) <= 1) as Hle.
    { rewrite Qpower_opp.
      assert (1 <= (1 + dr) ^ n) as Hge by (apply Qpower_1_le; [lra | exact Hn]).
      apply Qle_shift_inv_r; lra. }
    apply Qmult_le_0_compat; [|lra].
    unfold Qdiv. apply Qmult_le_0_compat; [lra|].
    apply Qinv_le_0_compat. lra.
Qed.

Lemma future_to_present_value_pos (dr : Q) (n : Z) :
  0 <= dr ->
  exists b, future_to_present_value dr n = Ok b /\ 0 < b.
Proof.
  intros Hdr. exists ((1 + dr) ^ (- n)). split.
  - unfold future_to_present_value. apply py_pow_ok. by apply growth_factor_nonzero.
  - apply Qpower_0_lt. lra.
Qed.

Lemma min_data_check_financials (m : model) :
  is_Some (base_financial_year m) -> is_Some (discount_rate m) ->
  min_data_check m ["base_financial_year"; "discount_rate"] = Ok tt.
Proof.
  intros Hb Hd. unfold min_data_check, has_data. simpl.
  rewrite !bool_decide_eq_true_2 by assumption. reflexivity.
Qed.

Lemma annual_rule_spec (m : model) (p : string) (dr : Q) (dy by_ n : Z) :
  discount_rate m = Some dr -> dollar_year m = Some dy ->
  base_financial_year m = Some by_ -> period_length_years m !! p = Some n ->
  0 <= dr -> (0 <= n)%Z ->
  exists a b,
    uniform_series_to_present_value dr n = Ok a /\
    future_to_present_value dr (dy - by_) = Ok b /\
    bring_annual_costs_to_base_year_rule m p = Ok (a * b) /\
    0 <= a * b.
Proof.
  intros Hdr Hdy Hby Hn Hpos Hlen.
  destruct (uniform_series_nonneg dr n Hpos Hlen) as (a & Ha & Ha0).
  destruct (future_to_present_value_pos dr (dy - by_) Hpos) as (b & Hb & Hb0).
  exists a, b. split; [exact Ha|]. split; [exact Hb|]. split.
  - unfold bring_annual_costs_to_base_year_rule.
    rewrite Hdr, Hdy, Hby, Hn. simpl. rewrite Ha. simpl. rewrite Hb. reflexivity.
  - apply Qmult_le_0_compat; lra.
Qed.

(** C3: on well-formed inputs the two derived Params are constructed; the
    factor of a period is [uniform_series_to_present_value] of the rate and
    the length of the period, times [future_to_present_value] of the rate
    and [dollar_year - base_financial_year]; the factor of a timepoint is
    the factor of its period times its weight in the year. *)
Theorem discount_factors_constructed (m : model) :
  financial_inputs_ok m = true ->
  exists m' dr dy by_,
    construct_components m = Ok m' /\
    discount_rate m = Some dr /\
    dollar_year m = Some dy /\
    base_financial_year m = Some by_ /\
    (forall p, p ∈ PERIODS m ->
       exists n a b,
         period_length_years m !! p = Some n /\
         uniform_series_to_present_value dr n = Ok a /\
         future_to_present_value dr (dy - by_) = Ok b /\
         at1 m' "bring_annual_costs_to_base_year" p = Ok (a * b)) /\
    (forall t, t ∈ TIMEPOINTS m ->
       exists p b w,
         tp_period m !! t = Some p /\
         at1 m' "bring_annual_costs_to_base_year" p = Ok b /\
         at1 m' "tp_weight_in_year" t = Ok w /\
         at1 m' "bring_timepoint_costs_to_base_year" t = Ok (b * w)).
Proof.
  unfold financial_inputs_ok. intros Hok.
  destruct (discount_rate m) as [dr|] eqn:Hdr; [|discriminate].
  destruct (dollar_year m) as [dy|] eqn:Hdy; [|discriminate].
  destruct (base_financial_year m) as [by_|] eqn:Hby; [|discriminate].
  apply andb_prop in Hok as [Hok Htps]. apply andb_prop in Hok as [Hok Hlens].
  apply andb_prop in Hok as [Hok Hby0]. apply andb_prop in Hok as [Hdr0 Hdy0].
  apply Qle_bool_imp_le in Hdr0. apply Z.leb_le in Hdy0, Hby0.
  (* the factor of every period *)
  assert (forall p, p ∈ PERIODS m ->
            exists n a b,
              period_length_years m !! p = Some n /\
              uniform_series_to_present_value dr n = Ok a /\
              future_to_present_value dr (dy - by_) = Ok b /\
              bring_annual_costs_to_base_year_rule m p = Ok (a * b) /\
              0 <= a * b) as Hannual.
  { intros p Hp. pose proof (forallb_elem_of _ _ _ Hlens Hp) as Hlen.
    simpl in Hlen.
    destruct (period_length_years m !! p) as [n|] eqn:Hn; [|discriminate].
    apply Z.leb_le in Hlen.
    destruct (annual_rule_spec m p dr dy by_ n) as (a & b & ?); try assumption.
    by exists n, a, b. }
  destruct (init_param_spec "bring_annual_costs_to_base_year"
              (bring_annual_costs_to_base_year_rule m) (PERIODS m) ∅)
    as (annual & Hinit_a & Hin_a & _).
  { intros p Hp. destruct (Hannual p Hp) as (n & a & b & _ & _ & _ & Hrule & Hpos).
    rewrite Hrule. simpl. by apply Qle_bool_iff. }
  set (m1 := set_indexed1 m
               (<["bring_annual_costs_to_base_year" := annual]> (indexed1 m))).
  assert (forall p, p ∈ PERIODS m ->
            at1 m1 "bring_annual_costs_to_base_year" p
            = Ok (val (bring_annual_costs_to_base_year_rule m p))) as Hread.
  { intros p Hp. unfold m1. rewrite at1_stored, (Hin_a p Hp). reflexivity. }
  (* the factor of every timepoint *)
  assert (forall t, t ∈ TIMEPOINTS m ->
            exists p b w,
              tp_period m !! t = Some p /\
              at1 m1 "bring_annual_costs_to_base_year" p = Ok b /\
              at1 m "tp_weight_in_year" t = Ok w /\
              bring_timepoint_costs_to_base_year_rule m1 t = Ok (b * w) /\
              0 <= b * w) as Htimepoint.
  { intros t Ht. pose proof (forallb_elem_of _ _ _ Htps Ht) as Hone.
    simpl in Hone. apply andb_prop in Hone as [Hperiod Hweight].
    destruct (tp_period m !! t) as [p|] eqn:Hp; [|discriminate].
    apply bool_decide_eq_true_1 in Hperiod.
    destruct (nonnegative_ok _ Hweight) as [Hw Hw0].
    destruct (Hannual p Hperiod) as (n & a & b & _ & _ & _ & Hrule & Hpos).
    exists p, (a * b), (val (at1 m "tp_weight_in_year" t)).
    split; [reflexivity|].
    assert (at1 m1 "bring_annual_costs_to_base_year" p = Ok (a * b)) as Hb.
    { rewrite (Hread p Hperiod), Hrule. reflexivity. }
    split; [exact Hb|]. split; [exact Hw|]. split.
    - unfold bring_timepoint_costs_to_base_year_rule.
      change (tp_period m1) with (tp_period m). rewrite Hp. simpl.
      rewrite Hb. simpl. unfold m1. rewrite at1_other by discriminate.
      rewrite Hw at 1. reflexivity.
    - by apply Qmult_le_0_compat. }
  destruct (init_param_spec "bring_timepoint_costs_to_base_year"
              (bring_timepoint_costs_to_base_year_rule m1) (TIMEPOINTS m) ∅)
    as (timepoint & Hinit_t & Hin_t & _).
  { intros t Ht.
    destruct (Htimepoint t Ht) as (p & b & w & _ & _ & _ & Hrule & Hpos).
    rewrite Hrule. simpl. by apply Qle_bool_iff. }
  exists (set_indexed1 m1
            (<["bring_timepoint_costs_to_base_year" := timepoint]> (indexed1 m1))),
         dr, dy, by_.
  split.
  { unfold construct_components.
    rewrite min_data_check_financials by (rewrite ?Hby, ?Hdr; eauto).
    rewrite Hdr, Hdy, Hby. cbn [fmap option_fmap option_map validate_scalar].
    rewrite (within_nonnegative _ (inject_Z by_)) by (by apply inject_Z_nonneg).
    rewrite (within_nonnegative _ (inject_Z dy)) by (by apply inject_Z_nonneg).
    rewrite (within_nonnegative _ dr) by exact Hdr0.
    rewrite !bind_Ok, Hinit_a, bind_Ok. cbv zeta. fold m1.
    change (TIMEPOINTS m1) with (TIMEPOINTS m). rewrite Hinit_t.
    reflexivity. }
  do 3 (split; [reflexivity|]). split.
  - intros p Hp. destruct (Hannual p Hp) as (n & a & b & Hn & Ha & Hb & Hrule & _).
    exists n, a, b. do 3 (split; [assumption|]).
    rewrite at1_other by discriminate. rewrite (Hread p Hp), Hrule. reflexivity.
  - intros t Ht.
    destruct (Htimepoint t Ht) as (p & b & w & Hp & Hb & Hw & Hrule & _).
    exists p, b, w. split; [exact Hp|]. split.
    { rewrite at1_other by discriminate. exact Hb. }
    split.
    { rewrite at1_other by discriminate. unfold m1.
      rewrite at1_other by discriminate. exact Hw. }
    rewrite at1_stored, (Hin_t t Ht), Hrule. reflexivity.
Qed.

Lemma discount_factors_constructed_witness :
  exists m' dr dy by_,
    construct_components one_zone = Ok m' /\
    discount_rate one_zone = Some dr /\
    dollar_year one_zone = Some dy /\
    base_financial_year one_zone = Some by_ /\
    (forall p, p ∈ PERIODS one_zone ->
       exists n a b,
         period_length_years one_zone !! p = Some n /\
         uniform_series_to_present_value dr n = Ok a /\
         future_to_present_value dr (dy - by_) = Ok b /\
         at1 m' "bring_annual_costs_to_base_year" p = Ok (a * b)) /\
    (forall t, t ∈ TIMEPOINTS one_zone ->
       exists p b w,
         tp_period one_zone !! t = Some p /\
         at1 m' "bring_annual_costs_to_base_year" p = Ok b /\
         at1 m' "tp_weight_in_year" t = Ok w /\
         at1 m' "bring_timepoint_costs_to_base_year" t = Ok (b * w)).
Proof.
  apply (discount_factors_constructed one_zone).
  vm_compute. reflexivity.
Defined.

End DiscountFactors.

(** ** The demand of a zone over a period *)

Section ZoneDemand.
Import load_zones.

Lemma validate_param_ok (name : string) (data : gmap (string * string) Q) :
  okb (validate_param name data) = true ->
  forall k v, data !! k = Some v -> 0 <= v.
Proof.
  unfold validate_param. intros Hok k v Hkv.
  destruct (forallb _ _) eqn:Hall; [|discriminate].
  apply elem_of_map_to_list in Hkv.
  apply Qle_bool_imp_le.
  apply (forallb_elem_of (fun kv => Qle_bool 0 (snd kv)) _ (k, v) Hall Hkv).
Qed.

Lemma min_data_check_load_zones (m : model) :
  okb (min_data_check m ["LOAD_ZONES"; "zone_demand_mw"]) = true ->
  LOAD_ZONES m <> [] /\
  forall z t, z ∈ LOAD_ZONES m -> t ∈ TIMEPOINTS m ->
    is_Some (default ∅ (indexed2 m !! "zone_demand_mw") !! (z, t)).
Proof.
  unfold min_data_check, has_data. simpl.
  destruct (bool_decide (LOAD_ZONES m = [])) eqn:Hzones; simpl; [discriminate|].
  apply bool_decide_eq_false_1 in Hzones.
  destruct (forallb _ _) eqn:Hcover; simpl; [|discriminate].
  intros _. split; [exact Hzones|]. intros z t Hz Ht.
  assert ((z, t) ∈ cross (LOAD_ZONES m) (TIMEPOINTS m)) as Hzt
    by (by apply elem_of_cross).
  pose proof (forallb_elem_of _ _ _ Hcover Hzt) as Hsome.
  by apply bool_decide_eq_true_1 in Hsome.
Qed.

Lemma demand_read (m : model) (z t : string) (d : Q) :
  default ∅ (indexed2 m !! "zone_demand_mw") !! (z, t) = Some d ->
  at2 m "zone_demand_mw" (z, t) = Ok d.
Proof.
  unfold at2. destruct (indexed2 m !! "zone_demand_mw") as [c|]; simpl.
  - by intros ->.
  - by rewrite lookup_empty.
Qed.

Lemma zone_total_demand_rule_spec (m : model) (z p : string) :
  load_inputs_ok m = true -> z ∈ LOAD_ZONES m -> p ∈ PERIODS m ->
  exists v,
    zone_total_demand_in_period_mwh_rule m z p = Ok v /\
    v == spec.zone_total_demand m z p /\
    0 <= v.
Proof.
  unfold load_inputs_ok. intros Hok Hz Hp.
  apply andb_prop in Hok as [Hok Hts]. apply andb_prop in Hok as [Hvalid Hcheck].
  pose proof (validate_param_ok _ _ Hvalid) as Hnonneg.
  destruct (min_data_check_load_zones m Hcheck) as [_ Hcover].
  pose proof (forallb_elem_of _ _ _ Hts Hp) as Hperiod. simpl in Hperiod.
  destruct (TPS_IN_PERIOD m !! p) as [tps|] eqn:Htps; [|discriminate].
  assert (forall t, t ∈ tps ->
            exists d w,
              at2 m "zone_demand_mw" (z, t) = Ok d /\ 0 <= d /\
              at1 m "tp_weight" t = Ok w /\ 0 <= w) as Hterm.
  { intros t Ht. pose proof (forallb_elem_of _ _ _ Hperiod Ht) as Hone.
    simpl in Hone. apply andb_prop in Hone as [Hin Hw].
    apply bool_decide_eq_true_1 in Hin.
    destruct (Hcover z t Hz Hin) as [d Hd].
    destruct (nonnegative_ok _ Hw) as [Hweight Hw0].
    exists d, (val (at1 m "tp_weight" t)).
    split; [by apply demand_read|]. split; [by apply (Hnonneg (z, t))|].
    by split. }
  destruct (sum_over_spec
              (fun t =>
                 d ← at2 m "zone_demand_mw" (z, t);
                 w ← at1 m "tp_weight" t;
                 Ok (d * w))
              (fun t => val (at2 m "zone_demand_mw" (z, t)) * val (at1 m "tp_weight" t))
              tps) as (v & Hv & Hsum).
  { intros t Ht. destruct (Hterm t Ht) as (d & w & Hd & _ & Hw & _).
    exists (d * w). rewrite Hd, Hw. by split. }
  exists v. split; [|split].
  - unfold zone_total_demand_in_period_mwh_rule. rewrite Htps. exact Hv.
  - unfold spec.zone_total_demand. rewrite Htps. exact Hsum.
  - rewrite Hsum. apply big_sum_nonneg. intros t Ht.
    destruct (Hterm t Ht) as (d & w & Hd & Hd0 & Hw & Hw0).
    rewrite Hd, Hw. simpl. by apply Qmult_le_0_compat.
Qed.

Lemma zone_total_demand_unchanged (m : model) (total : gmap (string * string) Q)
    (z p : string) :
  spec.zone_total_demand
    (set_indexed2 m (<["zone_total_demand_in_period_mwh" := total]> (indexed2 m))) z p
  == spec.zone_total_demand m z p.
Proof.
  unfold spec.zone_total_demand. apply big_sum_ext. intros t _.
  rewrite at2_other by discriminate. reflexivity.
Qed.

(** C9: on well-formed inputs the Param is constructed, and for every zone
    and period [zone_total_demand_in_period_mwh[z,p]] is the sum over the
    timepoints of the period of the demand times the weight of the
    timepoint.  On the one-zone instance of the specification the total is
    876000 and the discount factor of the timepoint is 8760. *)
Theorem zone_total_demand_is_weighted_sum (m : model) :
  load_inputs_ok m = true ->
  (exists m',
     construct_components m = Ok m' /\
     forall z p, z ∈ LOAD_ZONES m -> p ∈ PERIODS m ->
       exists v,
         at2 m' "zone_total_demand_in_period_mwh" (z, p) = Ok v /\
         v == spec.zone_total_demand m' z p) /\
  build one_zone Ok = Ok one_zone_instance /\
  at2 one_zone_instance "zone_demand_mw" ("Z1", "T1") = Ok 100 /\
  at2 one_zone_instance "zone_total_demand_in_period_mwh" ("Z1", "P1") = Ok 876000 /\
  at1 one_zone_instance "bring_timepoint_costs_to_base_year" "T1" = Ok 8760.
Proof.
  intros Hok. split; [|by vm_compute].
  destruct (init_param_spec "zone_total_demand_in_period_mwh"
              (fun zp => zone_total_demand_in_period_mwh_rule m (fst zp) (snd zp))
              (cross (LOAD_ZONES m) (PERIODS m)) ∅)
    as (total & Hinit & Hin & _).
  { intros [z p] Hzp. apply elem_of_cross in Hzp as [Hz Hp]. simpl.
    destruct (zone_total_demand_rule_spec m z p Hok Hz Hp) as (v & Hv & _ & Hv0).
    rewrite Hv. simpl. by apply Qle_bool_iff. }
  eexists. split.
  - unfold construct_components. rewrite Hinit.
    unfold load_inputs_ok in Hok.
    apply andb_prop in Hok as [Hok _]. apply andb_prop in Hok as [Hvalid Hcheck].
    apply okb_true in Hvalid as [[] ->]. apply okb_true in Hcheck as [[] ->].
    reflexivity.
  - intros z p Hz Hp.
    destruct (zone_total_demand_rule_spec m z p Hok Hz Hp) as (v & Hv & Hspec & _).
    exists v. split.
    + rewrite at2_stored, (Hin (z, p)) by (by apply elem_of_cross).
      simpl. rewrite Hv. reflexivity.
    + rewrite zone_total_demand_unchanged. exact Hspec.
Qed.

Lemma zone_total_demand_is_weighted_sum_witness :
  (exists m',
     construct_components one_zone = Ok m' /\
     forall z p, z ∈ LOAD_ZONES one_zone -> p ∈ PERIODS one_zone ->
       exists v,
         at2 m' "zone_total_demand_in_period_mwh" (z, p) = Ok v /\
         v == spec.zone_total_demand m' z p) /\
  build one_zone Ok = Ok one_zone_instance /\
  at2 one_zone_instance "zone_demand_mw" ("Z1", "T1") = Ok 100 /\
  at2 one_zone_instance "zone_total_demand_in_period_mwh" ("Z1", "P1") = Ok 876000 /\
  at1 one_zone_instance "bring_timepoint_costs_to_base_year" "T1" = Ok 8760.
Proof.
  apply (zone_total_demand_is_weighted_sum one_zone).
  vm_compute. reflexivity.
Defined.

End ZoneDemand.

(** ** Registration *)

Section Registration.

Lemma append_spec (m : model) (name item : string) (entries : list string) :
  lists m !! name = Some entries ->
  append m name item
  = Ok (set_lists m (<[name := entries ++ [item]]> (lists m))).
Proof. intros Hl. unfold append, get_list. by rewrite Hl. Qed.

Lemma append_missing (m : model) (name item : string) :
  lists m !! name = None -> append m name item = Err (AttributeError name).
Proof. intros Hl. unfold append, get_list. by rewrite Hl. Qed.

Lemma define_dynamic_lists_creates (m : model) :
  lists (load_zones.define_dynamic_lists m) !! "Zone_Power_Injections" = Some [] /\
  lists (load_zones.define_dynamic_lists m) !! "Zone_Power_Withdrawals" = Some [].
Proof.
  unfold load_zones.define_dynamic_lists, new_list. simpl. split.
  - rewrite lookup_insert_ne by discriminate. apply lookup_insert_eq.
  - apply lookup_insert_eq.
Qed.

(** C6: once the zonal list exists, [define_components] registers
    [zone_demand_mw] without raising, in the list of the distributed bus
    when the model has one and in the zonal list otherwise, and the list
    not chosen is as it was. *)
Theorem demand_registered_in_one_list (m : model) (central : list string) :
  lists m !! "Zone_Power_Withdrawals" = Some central ->
  exists m',
    load_zones.define_components m = Ok m' /\
    match lists m !! "Distributed_Power_Withdrawals" with
    | Some distributed =>
        lists m' !! "Distributed_Power_Withdrawals"
        = Some (distributed ++ ["zone_demand_mw"]) /\
        lists m' !! "Zone_Power_Withdrawals" = Some central
    | None =>
        lists m' !! "Distributed_Power_Withdrawals" = None /\
        lists m' !! "Zone_Power_Withdrawals" = Some (central ++ ["zone_demand_mw"])
    end /\
    (forall other,
        other <> "Distributed_Power_Withdrawals" ->
        other <> "Zone_Power_Withdrawals" ->
        lists m' !! other = lists m !! other).
Proof.
  intros Hcentral. unfold load_zones.define_components.
  set (m0 := declare m _).
  assert (lists m0 = lists m) as Hlists by reflexivity.
  destruct (lists m !! "Distributed_Power_Withdrawals") as [distributed|] eqn:Hd.
  - rewrite (append_spec m0 _ _ distributed) by (by rewrite Hlists).
    eexists. split; [reflexivity|]. simpl. rewrite ?Hlists. split; [split|].
    + apply lookup_insert_eq.
    + by rewrite lookup_insert_ne by discriminate.
    + intros other Hne _. by rewrite lookup_insert_ne.
  - rewrite (append_missing m0) by (by rewrite Hlists).
    rewrite (append_spec m0 _ _ central) by (by rewrite Hlists).
    eexists. split; [reflexivity|]. simpl. rewrite ?Hlists. split; [split|].
    + by rewrite lookup_insert_ne by discriminate.
    + apply lookup_insert_eq.
    + intros other _ Hne. by rewrite lookup_insert_ne.
Qed.

Lemma demand_registered_in_one_list_witness :
  exists m',
    load_zones.define_components (load_zones.define_dynamic_lists one_zone) = Ok m' /\
    match lists (load_zones.define_dynamic_lists one_zone)
          !! "Distributed_Power_Withdrawals" with
    | Some distributed =>
        lists m' !! "Distributed_Power_Withdrawals"
        = Some (distributed ++ ["zone_demand_mw"]) /\
        lists m' !! "Zone_Power_Withdrawals" = Some []
    | None =>
        lists m' !! "Distributed_Power_Withdrawals" = None /\
        lists m' !! "Zone_Power_Withdrawals" = Some ([] ++ ["zone_demand_mw"])
    end /\
    (forall other,
        other <> "Distributed_Power_Withdrawals" ->
        other <> "Zone_Power_Withdrawals" ->
        lists m' !! other = lists (load_zones.define_dynamic_lists one_zone) !! other).
Proof.
  apply (demand_registered_in_one_list (load_zones.define_dynamic_lists one_zone) []).
  vm_compute. reflexivity.
Defined.

(** When the model has neither list, the fallback itself raises. *)
Lemma demand_registration_without_lists (m : model) :
  lists m !! "Distributed_Power_Withdrawals" = None ->
  lists m !! "Zone_Power_Withdrawals" = None ->
  load_zones.define_components m = Err (AttributeError "Zone_Power_Withdrawals").
Proof.
  intros Hd Hc. unfold load_zones.define_components.
  set (m0 := declare m _).
  rewrite (append_missing m0) by exact Hd.
  by rewrite (append_missing m0) by exact Hc.
Qed.

(** C5, as the code has it: a registry is a plain list with no frozen
    state; registering appends the name, never raises on an existing
    registry, whatever has been declared or aggregated before, and leaves
    the earlier entries and the other registries as they were. *)
Theorem registration_always_appends (m : model) (registry item : string)
    (entries : list string) :
  lists m !! registry = Some entries ->
  exists m',
    append m registry item = Ok m' /\
    lists m' !! registry = Some (entries ++ [item]) /\
    (forall other, other <> registry -> lists m' !! other = lists m !! other) /\
    declared m' = declared m.
Proof.
  intros Hl. rewrite (append_spec m registry item entries Hl).
  eexists. split; [reflexivity|]. simpl. split; [|split; [|reflexivity]].
  - apply lookup_insert_eq.
  - intros other Hne. by rewrite lookup_insert_ne.
Qed.

Lemma registration_always_appends_witness :
  exists m',
    append generation_instance "Cost_Components_Per_TP" "LateCost" = Ok m' /\
    lists m' !! "Cost_Components_Per_TP" = Some (["GenVariableCostsInTP"] ++ ["LateCost"]) /\
    (forall other, other <> "Cost_Components_Per_TP" ->
                   lists m' !! other = lists generation_instance !! other) /\
    declared m' = declared generation_instance.
Proof.
  apply (registration_always_appends generation_instance
           "Cost_Components_Per_TP" "LateCost" ["GenVariableCostsInTP"]).
  vm_compute. reflexivity.
Defined.

(** C5, as stated, fails: on the built instance the aggregation components
    are declared and [SystemCost] has a value, yet a further registration is
    accepted, and the sum read afterwards counts the new entry. *)
Lemma registration_after_aggregation_accepted :
  "SystemCost" ∈ declared generation_instance /\
  "Zone_Energy_Balance" ∈ declared generation_instance /\
  financials.SystemCost generation_instance = Ok 31280 /\
  exists m',
    append generation_instance "Cost_Components_Per_TP" "GenVariableCostsInTP"
    = Ok m' /\
    lists m' !! "Cost_Components_Per_TP"
    = Some ["GenVariableCostsInTP"; "GenVariableCostsInTP"] /\
    financials.SystemCost m' = Ok 57560.
Proof.
  split; [compute_done|]. split; [compute_done|].
  split; [by vm_compute|].
  eexists. split; [reflexivity|]. split; by vm_compute.
Qed.

End Registration.

(** ** Mandatory financial parameters *)

Section MandatoryParameters.
Import financials.

Lemma missing_base_financial_year (m : model) :
  base_financial_year m = None ->
  okb (validate_scalar "dollar_year" (inject_Z <$> dollar_year m)) = true ->
  okb (validate_scalar "discount_rate" (discount_rate m)) = true ->
  construct_components m = Err (MissingDataError "base_financial_year").
Proof.
  intros Hby Hdy Hdr. unfold construct_components.
  apply okb_true in Hdy as [[] ->]. apply okb_true in Hdr as [[] ->].
  rewrite Hby. cbn [fmap option_fmap option_map validate_scalar].
  rewrite !bind_Ok. unfold min_data_check, has_data. simpl.
  rewrite Hby. reflexivity.
Qed.

Lemma missing_discount_rate (m : model) :
  is_Some (base_financial_year m) -> discount_rate m = None ->
  okb (validate_scalar "base_financial_year" (inject_Z <$> base_financial_year m)) = true ->
  okb (validate_scalar "dollar_year" (inject_Z <$> dollar_year m)) = true ->
  construct_components m = Err (MissingDataError "discount_rate").
Proof.
  intros Hsome Hdr Hby Hdy. unfold construct_components.
  apply okb_true in Hby as [[] ->]. apply okb_true in Hdy as [[] ->].
  rewrite Hdr. cbn [validate_scalar]. rewrite !bind_Ok.
  unfold min_data_check, has_data. simpl.
  rewrite bool_decide_eq_true_2 by exact Hsome. rewrite Hdr. reflexivity.
Qed.

(** Without periods nothing reads [dollar_year], and the components of
    this module are constructed without it; the timescales module, which
    supplies the periods, makes them mandatory. *)
Lemma missing_dollar_year_unnoticed (m : model) (by_ : Z) (dr : Q) :
  base_financial_year m = Some by_ -> (0 <= by_)%Z ->
  discount_rate m = Some dr -> 0 <= dr ->
  dollar_year m = None -> PERIODS m = [] -> TIMEPOINTS m = [] ->
  is_ok (construct_components m).
Proof.
  intros Hby Hby0 Hdr Hdr0 Hdy Hp Ht. unfold construct_components.
  rewrite min_data_check_financials by (rewrite ?Hby, ?Hdr; eauto).
  rewrite Hby, Hdr, Hdy, Hp. cbn [fmap option_fmap option_map validate_scalar].
  rewrite (within_nonnegative _ (inject_Z by_)) by (by apply inject_Z_nonneg).
  rewrite (within_nonnegative _ dr) by exact Hdr0.
  rewrite !bind_Ok. cbn [init_param]. rewrite bind_Ok. cbv zeta.
  change (TIMEPOINTS (set_indexed1 m _)) with (TIMEPOINTS m). rewrite Ht.
  cbn [init_param]. rewrite bind_Ok. by eexists.
Qed.

Lemma validate_scalar_inv (name : string) (v : option Q) (x : Q) :
  okb (validate_scalar name v) = true -> v = Some x -> 0 <= x.
Proof.
  intros Hok ->. unfold validate_scalar, within_NonNegativeReals in Hok.
  destruct (Qle_bool 0 x) eqn:Hx; [|discriminate]. by apply Qle_bool_imp_le.
Qed.

Lemma uniform_series_returns (dr : Q) (n : Z) :
  0 <= dr -> exists a, uniform_series_to_present_value dr n = Ok a.
Proof.
  intros Hdr. destruct (Qeq_dec dr 0) as [Hz|Hnz].
  - eexists. by apply uniform_series_zero_rate.
  - eexists. apply uniform_series_nonzero_rate; [exact Hnz|].
    left. by apply growth_factor_nonzero.
Qed.

(** With a period to initialise, the rule of
    [bring_annual_costs_to_base_year] reads [dollar_year], and the
    construction stops there when it has no value. *)
Lemma missing_dollar_year (m : model) (p : string) (rest : list string) (n : Z) :
  PERIODS m = p :: rest ->
  period_length_years m !! p = Some n ->
  is_Some (base_financial_year m) ->
  is_Some (discount_rate m) ->
  dollar_year m = None ->
  okb (validate_scalar "base_financial_year" (inject_Z <$> base_financial_year m)) = true ->
  okb (validate_scalar "discount_rate" (discount_rate m)) = true ->
  construct_components m = Err (UndefinedValue "dollar_year").
Proof.
  intros Hp Hn Hby_some Hdr_some Hdy Hby Hrate. unfold construct_components.
  rewrite min_data_check_financials by assumption.
  apply okb_true in Hby as [[] ->].
  destruct Hdr_some as [dr Hdr].
  pose proof (validate_scalar_inv _ _ dr Hrate Hdr) as Hdr0.
  apply okb_true in Hrate as [[] ->].
  rewrite Hdy, Hp. cbn [fmap option_fmap option_map validate_scalar].
  rewrite !bind_Ok. cbn [init_param].
  unfold bring_annual_costs_to_base_year_rule, scalar.
  rewrite Hdr, Hn, Hdy. cbn [from_option]. rewrite !bind_Ok.
  destruct (uniform_series_returns dr n Hdr0) as [a ->].
  reflexivity.
Qed.

(** C7: each of [base_financial_year], [dollar_year] and [discount_rate] is
    mandatory.  On a model with a period to initialise, whose values in
    financials.csv are within their domain where present, the construction
    of the instance, which precedes any solve, fails as soon as one of the
    three has no value, with the missing-data error naming a parameter that
    has none: the data check reports [base_financial_year] and
    [discount_rate], and the first read of [dollar_year] reports it. *)
Theorem financial_parameters_are_mandatory (m : model) (p : string)
    (rest : list string) (n : Z) :
  PERIODS m = p :: rest ->
  period_length_years m !! p = Some n ->
  okb (validate_scalar "base_financial_year" (inject_Z <$> base_financial_year m)) = true ->
  okb (validate_scalar "dollar_year" (inject_Z <$> dollar_year m)) = true ->
  okb (validate_scalar "discount_rate" (discount_rate m)) = true ->
  base_financial_year m = None \/ dollar_year m = None \/ discount_rate m = None ->
  exists e name,
    construct_components m = Err e /\
    missing_data e = Some name /\
    ((name = "base_financial_year" /\ base_financial_year m = None) \/
     (name = "dollar_year" /\ dollar_year m = None) \/
     (name = "discount_rate" /\ discount_rate m = None)).
Proof.
  intros Hp Hn Hby Hdy Hrate Hmissing.
  destruct (base_financial_year m) as [by_|] eqn:Hby_value.
  - destruct (discount_rate m) as [dr|] eqn:Hdr_value.
    + destruct (dollar_year m) as [dy|] eqn:Hdy_value.
      { destruct Hmissing as [H|[H|H]]; discriminate H. }
      exists (UndefinedValue "dollar_year"), "dollar_year".
      split; [|split; [reflexivity | right; left; by split]].
      apply (missing_dollar_year m p rest n); try assumption.
      * rewrite Hby_value. by eexists.
      * rewrite Hdr_value. by eexists.
      * by rewrite Hby_value.
      * by rewrite Hdr_value.
    + exists (MissingDataError "discount_rate"), "discount_rate".
      split; [|split; [reflexivity | right; right; by split]].
      apply missing_discount_rate; try assumption.
      * rewrite Hby_value. by eexists.
      * by rewrite Hby_value.
  - exists (MissingDataError "base_financial_year"), "base_financial_year".
    split; [|split; [reflexivity | left; by split]].
    by apply missing_base_financial_year.
Qed.

Lemma financial_parameters_are_mandatory_witness :
  exists e name,
    construct_components no_dollar_year = Err e /\
    missing_data e = Some name /\
    ((name = "base_financial_year" /\ base_financial_year no_dollar_year = None) \/
     (name = "dollar_year" /\ dollar_year no_dollar_year = None) \/
     (name = "discount_rate" /\ discount_rate no_dollar_year = None)).
Proof.
  apply (financial_parameters_are_mandatory no_dollar_year "P1" [] 1).
  - reflexivity.
  - vm_compute. reflexivity.
  - reflexivity.
  - reflexivity.
  - reflexivity.
  - right. left. reflexivity.
Defined.

End MandatoryParameters.

(** ** Exported energy cost *)

Section EnergyCost.
Import financials.

Lemma system_demand_spec (m : model) (p : string) :
  total_demand_nonnegative m p = true ->
  exists d,
    system_demand m p = Ok d /\
    d == spec.total_zone_demand m p /\
    0 <= d.
Proof.
  unfold total_demand_nonnegative. intros Hnn.
  destruct (sum_over_val
              (fun z => at2 m "zone_total_demand_in_period_mwh" (z, p))
              (LOAD_ZONES m)) as (d & Hd & Hsum).
  { apply forallb_forall. intros z Hz. rewrite forallb_forall in Hnn.
    destruct (nonnegative_ok _ (Hnn z Hz)) as [-> _]. reflexivity. }
  exists d. split; [exact Hd|]. split; [exact Hsum|].
  unfold spec.total_zone_demand in *. rewrite Hsum. apply big_sum_nonneg.
  intros z Hz. by destruct (nonnegative_ok _ (forallb_elem_of _ _ _ Hnn Hz)).
Qed.

(** With no demand at all the total is zero, whatever the zones. *)
Lemma system_demand_all_zero (m : model) (p : string) :
  forallb
    (fun z => Qeq_bool (val (at2 m "zone_total_demand_in_period_mwh" (z, p))) 0)
    (LOAD_ZONES m) = true ->
  spec.total_zone_demand m p == 0.
Proof.
  intros Hz. apply big_sum_zero. intros z Hin.
  apply Qeq_bool_eq. by apply (forallb_elem_of _ _ _ Hz).
Qed.

(** C10: the exported cost per MWh divides by the total demand of the
    period with no guard.  When the period has a system cost and a discount
    factor that is not zero, and no zone has a negative total, the export
    has a value exactly when the total demand is strictly positive, and
    raises [ZeroDivisionError] otherwise.  The instance with a demand of
    zero everywhere passes every check of the construction, and its export
    raises. *)
Theorem energy_cost_per_mwh_needs_positive_demand (m : model) (p : string) (c b : Q) :
  SystemCostPerPeriod m p = Ok c ->
  at1 m "bring_annual_costs_to_base_year" p = Ok b ->
  ~ b == 0 ->
  total_demand_nonnegative m p = true ->
  (exists d,
     system_demand m p = Ok d /\
     d == spec.total_zone_demand m p /\
     0 <= d /\
     (0 < d -> energy_cost_real_per_mwh m p = Ok (c / b / d)) /\
     (~ 0 < d ->
      energy_cost_real_per_mwh m p = Err ZeroDivisionError /\
      normalized_dat_row m p = Err ZeroDivisionError)) /\
  build no_demand generation_define_components = Ok no_demand_instance /\
  system_demand no_demand_instance "P1" = Ok 0 /\
  normalized_dat no_demand_instance = Err ZeroDivisionError.
Proof.
  intros Hc Hb Hb0 Hnn. split; [|by vm_compute].
  destruct (system_demand_spec m p Hnn) as (d & Hd & Hsum & Hd0).
  exists d. do 3 (split; [assumption|]).
  assert (system_cost_real m p = Ok (c / b)) as Hreal.
  { unfold system_cost_real. rewrite Hc, bind_Ok, Hb, bind_Ok.
    by apply py_div_ok. }
  split.
  - intros Hpos. unfold energy_cost_real_per_mwh.
    rewrite Hreal, bind_Ok, Hd, bind_Ok. apply py_div_ok. lra.
  - intros Hzero. assert (d == 0) as Hd_zero by lra.
    assert (energy_cost_real_per_mwh m p = Err ZeroDivisionError) as Hfail.
    { unfold energy_cost_real_per_mwh.
      rewrite Hreal, bind_Ok, Hd, bind_Ok. by apply py_div_zero. }
    split; [exact Hfail|].
    unfold normalized_dat_row. rewrite Hc, bind_Ok, Hreal, bind_Ok, Hfail.
    reflexivity.
Qed.

Lemma energy_cost_per_mwh_needs_positive_demand_witness :
  (exists d,
     system_demand generation_instance "P1" = Ok d /\
     d == spec.total_zone_demand generation_instance "P1" /\
     0 <= d /\
     (0 < d -> energy_cost_real_per_mwh generation_instance "P1"
               = Ok (31280 / 1 / d)) /\
     (~ 0 < d ->
      energy_cost_real_per_mwh generation_instance "P1" = Err ZeroDivisionError /\
      normalized_dat_row generation_instance "P1" = Err ZeroDivisionError)) /\
  build no_demand generation_define_components = Ok no_demand_instance /\
  system_demand no_demand_instance "P1" = Ok 0 /\
  normalized_dat no_demand_instance = Err ZeroDivisionError.
Proof.
  apply (energy_cost_per_mwh_needs_positive_demand generation_instance "P1" 31280 1).
  - vm_compute. reflexivity.
  - vm_compute. reflexivity.
  - intros H. discriminate H.
  - vm_compute. reflexivity.
Defined.

End EnergyCost.

(** * Further properties *)

(** ** Sums, continued *)

Lemma big_sum_snoc {A : Type} (g : A -> Q) (l : list A) (a : A) :
  big_sum g (l ++ [a]) == big_sum g l + g a.
Proof. rewrite big_sum_app. simpl. ring. Qed.

(** ** Registries and the sums read from them *)

Section RegistrySums.
Import load_zones.

Lemma big_sum_perm {A : Type} (g : A -> Q) (l l' : list A) :
  l ≡ₚ l' -> big_sum g l == big_sum g l'.
Proof.
  induction 1 as [|a l l' _ IH|a b l|l l' l'' _ IH1 _ IH2]; simpl.
  - reflexivity.
  - by rewrite IH.
  - ring.
  - by rewrite IH1.
Qed.

Lemma forallb_perm {A : Type} (P : A -> bool) (l l' : list A) :
  l ≡ₚ l' -> forallb P l = true -> forallb P l' = true.
Proof.
  intros Hperm Hall. apply forallb_forall. intros a Ha.
  apply (forallb_elem_of P l a Hall).
  rewrite Hperm. by apply list_elem_of_In.
Qed.


Lemma balance_value (m : model) (z t : string) (injections withdrawals : list string) :
  (z, t) ∈ ZONE_TIMEPOINTS m ->
  lists m !! "Zone_Power_Injections" = Some injections ->
  lists m !! "Zone_Power_Withdrawals" = Some withdrawals ->
  forallb (fun c => okb (at2 m c (z, t))) injections = true ->
  forallb (fun c => okb (at2 m c (z, t))) withdrawals = true ->
  exists lhs rhs,
    Zone_Energy_Balance m z t = Ok (Equality lhs rhs) /\
    lhs == spec.power_sum m injections z t /\
    rhs == spec.power_sum m withdrawals z t.
Proof.
  intros Hzt Hinj Hwd Hi Hw.
  destruct (sum_of_registry m injections z t Hi) as (lhs & Hlhs & Hl).
  destruct (sum_of_registry m withdrawals z t Hw) as (rhs & Hrhs & Hr).
  exists lhs, rhs. split; [|by split].
  unfold Zone_Energy_Balance. rewrite bool_decide_eq_true_2 by exact Hzt.
  unfold get_list. rewrite Hinj, Hwd. simpl. rewrite Hlhs. simpl.
  by rewrite Hrhs.
Qed.

Lemma components_defined_inv (m : model) (z t : string) :
  power_components_defined m z t = true ->
  exists injections withdrawals,
    (z, t) ∈ ZONE_TIMEPOINTS m /\
    lists m !! "Zone_Power_Injections" = Some injections /\
    lists m !! "Zone_Power_Withdrawals" = Some withdrawals /\
    forallb (fun c => okb (at2 m c (z, t))) injections = true /\
    forallb (fun c => okb (at2 m c (z, t))) withdrawals = true.
Proof.
  unfold power_components_defined. intros Hdef.
  apply andb_prop in Hdef as [Hzt Hdef]. apply bool_decide_eq_true_1 in Hzt.
  destruct (lists m !! "Zone_Power_Injections") as [injections|]; [|discriminate].
  destruct (lists m !! "Zone_Power_Withdrawals") as [withdrawals|]; [|discriminate].
  rewrite forallb_app in Hdef. apply andb_prop in Hdef as [Hi Hw].
  by exists injections, withdrawals.
Qed.

(** X5: the balance of a zone and timepoint does not depend on the order in
    which the modules registered their components: reordering either
    registry gives an equality with equal sides. *)
Theorem balance_independent_of_registration_order (m : model) (z t : string)
    (injections withdrawals injections' withdrawals' : list string) :
  power_components_defined m z t = true ->
  lists m !! "Zone_Power_Injections" = Some injections ->
  lists m !! "Zone_Power_Withdrawals" = Some withdrawals ->
  injections ≡ₚ injections' ->
  withdrawals ≡ₚ withdrawals' ->
  exists lhs rhs lhs' rhs',
    Zone_Energy_Balance m z t = Ok (Equality lhs rhs) /\
    Zone_Energy_Balance
      (set_lists m (<["Zone_Power_Withdrawals" := withdrawals']>
                      (<["Zone_Power_Injections" := injections']> (lists m))))
      z t = Ok (Equality lhs' rhs') /\
    lhs == lhs' /\ rhs == rhs'.
Proof.
  intros Hdef Hinj Hwd Hpi Hpw.
  destruct (components_defined_inv m z t Hdef) as (i0 & w0 & Hzt & Hi0 & Hw0 & Hi & Hw).
  rewrite Hinj in Hi0. injection Hi0 as <-.
  rewrite Hwd in Hw0. injection Hw0 as <-.
  destruct (balance_value m z t injections withdrawals)
    as (lhs & rhs & Hbal & Hl & Hr); try assumption.
  set (m' := set_lists m _).
  destruct (balance_value m' z t injections' withdrawals')
    as (lhs' & rhs' & Hbal' & Hl' & Hr').
  - exact Hzt.
  - unfold m'. simpl. rewrite lookup_insert_ne by discriminate.
    apply lookup_insert_eq.
  - unfold m'. simpl. apply lookup_insert_eq.
  - by apply (forallb_perm _ injections).
  - by apply (forallb_perm _ withdrawals).
  - exists lhs, rhs, lhs', rhs'. do 2 (split; [assumption|]).
    rewrite Hl, Hl', Hr, Hr'. unfold spec.power_sum.
    split; by apply big_sum_perm.
Qed.

Lemma balance_independent_of_registration_order_witness :
  exists lhs rhs lhs' rhs',
    Zone_Energy_Balance two_cost_instance "Z1" "T1" = Ok (Equality lhs rhs) /\
    Zone_Energy_Balance
      (set_lists two_cost_instance
         (<["Zone_Power_Withdrawals" := ["zone_demand_mw"]]>
            (<["Zone_Power_Injections" :=
                 ["ZoneTotalExcessGen"; "ZoneTotalCentralDispatch"]]>
               (lists two_cost_instance))))
      "Z1" "T1" = Ok (Equality lhs' rhs') /\
    lhs == lhs' /\ rhs == rhs'.
Proof.
  apply (balance_independent_of_registration_order two_cost_instance "Z1" "T1"
           ["ZoneTotalCentralDispatch"; "ZoneTotalExcessGen"] ["zone_demand_mw"]).
  - vm_compute. reflexivity.
  - vm_compute. reflexivity.
  - vm_compute. reflexivity.
  - apply perm_swap.
  - reflexivity.
Defined.




(** X7: registering a component as an injection adds exactly its value at
    [(z,t)] to the left side of the balance and leaves the right side as it
    was; a name registered twice is counted twice. *)
Theorem registration_adds_one_term (m : model) (z t c : string) (v : Q) :
  power_components_defined m z t = true ->
  at2 m c (z, t) = Ok v ->
  exists m' lhs rhs lhs' rhs',
    append m "Zone_Power_Injections" c = Ok m' /\
    Zone_Energy_Balance m z t = Ok (Equality lhs rhs) /\
    Zone_Energy_Balance m' z t = Ok (Equality lhs' rhs') /\
    lhs' == lhs + v /\ rhs' == rhs.
Proof.
  intros Hdef Hc.
  destruct (components_defined_inv m z t Hdef)
    as (injections & withdrawals & Hzt & Hinj & Hwd & Hi & Hw).
  destruct (balance_value m z t injections withdrawals)
    as (lhs & rhs & Hbal & Hl & Hr); try assumption.
  rewrite (append_spec m _ c injections Hinj).
  set (m' := set_lists m _).
  destruct (balance_value m' z t (injections ++ [c]) withdrawals)
    as (lhs' & rhs' & Hbal' & Hl' & Hr').
  - exact Hzt.
  - unfold m'. simpl. apply lookup_insert_eq.
  - unfold m'. simpl. by rewrite lookup_insert_ne by discriminate.
  - rewrite forallb_app. change (at2 m') with (at2 m). rewrite Hi. simpl.
    by rewrite Hc.
  - exact Hw.
  - exists m', lhs, rhs, lhs', rhs'. split; [reflexivity|].
    do 2 (split; [assumption|]).
    rewrite Hl', Hr', Hl, Hr. unfold spec.power_sum.
    change (at2 m') with (at2 m). split; [|reflexivity].
    rewrite big_sum_snoc, Hc. reflexivity.
Qed.

Lemma registration_adds_one_term_witness :
  exists m' lhs rhs lhs' rhs',
    append generation_instance "Zone_Power_Injections" "ZoneTotalCentralDispatch"
    = Ok m' /\
    Zone_Energy_Balance generation_instance "Z1" "T1" = Ok (Equality lhs rhs) /\
    Zone_Energy_Balance m' "Z1" "T1" = Ok (Equality lhs' rhs') /\
    lhs' == lhs + 100 /\ rhs' == rhs.
Proof.
  apply (registration_adds_one_term generation_instance "Z1" "T1"
           "ZoneTotalCentralDispatch" 100).
  - vm_compute. reflexivity.
  - vm_compute. reflexivity.
Defined.

End RegistrySums.

(** ** Where the demand is registered *)

Section DemandRegistration.
Import load_zones.

(** X8: when the model has the list of the distributed bus,
    [define_components] registers the demand there and the balance of the
    zonal bus is the same as before at every zone and timepoint. *)
Theorem demand_on_distributed_bus_leaves_zonal_balance (m : model)
    (distributed : list string) :
  lists m !! "Distributed_Power_Withdrawals" = Some distributed ->
  exists m',
    define_components m = Ok m' /\
    lists m' !! "Distributed_Power_Withdrawals"
    = Some (distributed ++ ["zone_demand_mw"]) /\
    forall z t, Zone_Energy_Balance m' z t = Zone_Energy_Balance m z t.
Proof.
  intros Hd. unfold define_components.
  set (m0 := declare m _).
  rewrite (append_spec m0 _ _ distributed) by exact Hd.
  eexists. split; [reflexivity|]. split.
  - simpl. apply lookup_insert_eq.
  - intros z t. unfold Zone_Energy_Balance, get_list. simpl.
    rewrite !lookup_insert_ne by discriminate. reflexivity.
Qed.

Lemma demand_on_distributed_bus_leaves_zonal_balance_witness :
  exists m',
    define_components (new_list generation_instance "Distributed_Power_Withdrawals")
    = Ok m' /\
    lists m' !! "Distributed_Power_Withdrawals" = Some ([] ++ ["zone_demand_mw"]) /\
    forall z t,
      Zone_Energy_Balance m' z t
      = Zone_Energy_Balance
          (new_list generation_instance "Distributed_Power_Withdrawals") z t.
Proof.
  apply (demand_on_distributed_bus_leaves_zonal_balance
           (new_list generation_instance "Distributed_Power_Withdrawals") []).
  vm_compute. reflexivity.
Defined.

(** X9: when the model has no list for a distributed bus,
    [define_components] adds the demand of the zone at the timepoint to the
    right side of the zonal balance and leaves the left side as it was. *)
Theorem demand_enters_zonal_balance (m : model) (z t : string) (d : Q) :
  lists m !! "Distributed_Power_Withdrawals" = None ->
  power_components_defined m z t = true ->
  at2 m "zone_demand_mw" (z, t) = Ok d ->
  exists m' lhs rhs lhs' rhs',
    define_components m = Ok m' /\
    Zone_Energy_Balance m z t = Ok (Equality lhs rhs) /\
    Zone_Energy_Balance m' z t = Ok (Equality lhs' rhs') /\
    lhs' == lhs /\ rhs' == rhs + d.
Proof.
  intros Hnone Hdef Hd.
  destruct (components_defined_inv m z t Hdef)
    as (injections & withdrawals & Hzt & Hinj & Hwd & Hi & Hw).
  destruct (balance_value m z t injections withdrawals)
    as (lhs & rhs & Hbal & Hl & Hr); try assumption.
  unfold define_components. set (m0 := declare m _).
  rewrite (append_missing m0) by exact Hnone.
  rewrite (append_spec m0 _ _ withdrawals) by exact Hwd.
  rewrite bind_Ok. set (m' := declare _ _).
  destruct (balance_value m' z t injections (withdrawals ++ ["zone_demand_mw"]))
    as (lhs' & rhs' & Hbal' & Hl' & Hr').
  - exact Hzt.
  - unfold m'. simpl. by rewrite lookup_insert_ne by discriminate.
  - unfold m'. simpl. apply lookup_insert_eq.
  - exact Hi.
  - rewrite forallb_app. change (at2 m') with (at2 m). rewrite Hw. simpl.
    by rewrite Hd.
  - exists m', lhs, rhs, lhs', rhs'. split; [reflexivity|].
    do 2 (split; [assumption|]).
    rewrite Hl', Hr', Hl, Hr. unfold spec.power_sum.
    change (at2 m') with (at2 m). split; [reflexivity|].
    rewrite big_sum_snoc, Hd. reflexivity.
Qed.

Lemma demand_enters_zonal_balance_witness :
  exists m' lhs rhs lhs' rhs',
    define_components generation_instance = Ok m' /\
    Zone_Energy_Balance generation_instance "Z1" "T1" = Ok (Equality lhs rhs) /\
    Zone_Energy_Balance m' "Z1" "T1" = Ok (Equality lhs' rhs') /\
    lhs' == lhs /\ rhs' == rhs + 100.
Proof.
  apply (demand_enters_zonal_balance generation_instance "Z1" "T1" 100).
  - vm_compute. reflexivity.
  - vm_compute. reflexivity.
  - vm_compute. reflexivity.
Defined.

End DemandRegistration.

(** ** The system cost and the order of registration *)

Section CostOrder.
Import financials.

Lemma cost_components_defined_inv (m : model) (p : string) :
  cost_components_defined m p = true ->
  exists per_tp per_period tps,
    lists m !! "Cost_Components_Per_TP" = Some per_tp /\
    lists m !! "Cost_Components_Per_Period" = Some per_period /\
    TPS_IN_PERIOD m !! p = Some tps /\
    forallb (fun c => okb (at1 m c p)) per_period = true /\
    (forall t, t ∈ tps ->
       okb (at1 m "tp_weight_in_year" t) = true /\
       forallb (fun c => okb (at1 m c t)) per_tp = true) /\
    okb (at1 m "bring_annual_costs_to_base_year" p) = true.
Proof.
  unfold cost_components_defined. intros Hdef.
  destruct (lists m !! "Cost_Components_Per_TP") as [per_tp|]; [|discriminate].
  destruct (lists m !! "Cost_Components_Per_Period") as [per_period|]; [|discriminate].
  destruct (TPS_IN_PERIOD m !! p) as [tps|]; [|discriminate].
  apply andb_prop in Hdef as [Hdef Hb]. apply andb_prop in Hdef as [Ha Ht].
  exists per_tp, per_period, tps. do 4 (split; [done|]). split; [|exact Hb].
  intros t Hin. pose proof (forallb_elem_of _ _ _ Ht Hin) as Hone.
  by apply andb_prop in Hone.
Qed.

Lemma cost_components_defined_intro (m : model) (p : string)
    (per_tp per_period tps : list string) :
  lists m !! "Cost_Components_Per_TP" = Some per_tp ->
  lists m !! "Cost_Components_Per_Period" = Some per_period ->
  TPS_IN_PERIOD m !! p = Some tps ->
  forallb (fun c => okb (at1 m c p)) per_period = true ->
  (forall t, t ∈ tps ->
     okb (at1 m "tp_weight_in_year" t) = true /\
     forallb (fun c => okb (at1 m c t)) per_tp = true) ->
  okb (at1 m "bring_annual_costs_to_base_year" p) = true ->
  cost_components_defined m p = true.
Proof.
  intros Htp Hpp Htps Ha Ht Hb. unfold cost_components_defined.
  rewrite Htp, Hpp, Htps, Ha, Hb. rewrite andb_true_r. simpl.
  apply forallb_forall. intros t Hin. apply list_elem_of_In in Hin.
  destruct (Ht t Hin) as [-> ->]. reflexivity.
Qed.

(** X10: the system cost of a period does not depend on the order in which
    the cost components were registered. *)
Theorem system_cost_independent_of_registration_order (m : model) (p : string)
    (per_tp per_period per_tp' per_period' : list string) :
  p ∈ PERIODS m ->
  cost_components_defined m p = true ->
  lists m !! "Cost_Components_Per_TP" = Some per_tp ->
  lists m !! "Cost_Components_Per_Period" = Some per_period ->
  per_tp ≡ₚ per_tp' ->
  per_period ≡ₚ per_period' ->
  exists v v',
    SystemCostPerPeriod m p = Ok v /\
    SystemCostPerPeriod
      (set_lists m (<["Cost_Components_Per_Period" := per_period']>
                      (<["Cost_Components_Per_TP" := per_tp']> (lists m))))
      p = Ok v' /\
    v == v'.
Proof.
  intros Hp Hdef Htp Hpp Hperm_tp Hperm_pp.
  destruct (cost_components_defined_inv m p Hdef)
    as (tp0 & pp0 & tps & Htp0 & Hpp0 & Htps & Ha & Ht & Hb).
  rewrite Htp in Htp0. injection Htp0 as <-.
  rewrite Hpp in Hpp0. injection Hpp0 as <-.
  set (m' := set_lists m _).
  assert (lists m' !! "Cost_Components_Per_TP" = Some per_tp') as Htp'.
  { unfold m'. simpl. rewrite lookup_insert_ne by discriminate.
    apply lookup_insert_eq. }
  assert (lists m' !! "Cost_Components_Per_Period" = Some per_period') as Hpp'.
  { unfold m'. simpl. apply lookup_insert_eq. }
  assert (cost_components_defined m' p = true) as Hdef'.
  { apply (cost_components_defined_intro m' p per_tp' per_period' tps);
      try assumption.
    - by apply (forallb_perm _ per_period).
    - intros t Hin. destruct (Ht t Hin) as [Hw Hc]. split; [exact Hw|].
      by apply (forallb_perm _ per_tp). }
  destruct (sys_costs_of_period m p Hdef) as (v & Hv & Hspec).
  destruct (sys_costs_of_period m' p Hdef') as (v' & Hv' & Hspec').
  exists v, v'. unfold SystemCostPerPeriod.
  change (PERIODS m') with (PERIODS m).
  rewrite bool_decide_eq_true_2 by exact Hp.
  do 2 (split; [assumption|]).
  rewrite Hspec, Hspec'. change (at1 m') with (at1 m).
  assert (spec.annual_costs m' p == spec.annual_costs m p) as ->.
  { unfold spec.annual_costs. rewrite Hpp, Hpp'. simpl.
    change (at1 m') with (at1 m). symmetry. by apply big_sum_perm. }
  assert (spec.tp_costs m' p == spec.tp_costs m p) as ->.
  { unfold spec.tp_costs. rewrite Htp, Htp'.
    change (TPS_IN_PERIOD m') with (TPS_IN_PERIOD m).
    change (at1 m') with (at1 m). simpl.
    apply big_sum_ext. intros t _. symmetry. by apply big_sum_perm. }
  reflexivity.
Qed.

Lemma system_cost_independent_of_registration_order_witness :
  exists v v',
    SystemCostPerPeriod two_cost_instance "P1" = Ok v /\
    SystemCostPerPeriod
      (set_lists two_cost_instance
         (<["Cost_Components_Per_Period" := ["TotalGenFixedCosts"]]>
            (<["Cost_Components_Per_TP" := ["FuelCostsPerTP"; "GenVariableCostsInTP"]]>
               (lists two_cost_instance))))
      "P1" = Ok v' /\
    v == v'.
Proof.
  apply (system_cost_independent_of_registration_order two_cost_instance "P1"
           ["GenVariableCostsInTP"; "FuelCostsPerTP"] ["TotalGenFixedCosts"]).
  - compute_done.
  - vm_compute. reflexivity.
  - vm_compute. reflexivity.
  - vm_compute. reflexivity.
  - apply perm_swap.
  - reflexivity.
Defined.

End CostOrder.

(** ** Comprehensions and sums of sums *)

Section Comprehensions.
Context {A B : Type}.
Implicit Types (f : A -> result B) (l : list A) (bs : list B).




End Comprehensions.


Lemma big_sum_plus {A : Type} (g h : A -> Q) (l : list A) :
  big_sum (fun a => g a + h a) l == big_sum g l + big_sum h l.
Proof.
  induction l as [|a l IH]; simpl; [ring|]. rewrite IH. ring.
Qed.

Lemma big_sum_scale {A : Type} (g : A -> Q) (k : Q) (l : list A) :
  big_sum (fun a => g a * k) l == big_sum g l * k.
Proof.
  induction l as [|a l IH]; simpl; [ring|]. rewrite IH. ring.
Qed.

Lemma big_sum_swap {A B : Type} (g : A -> B -> Q) (la : list A) (lb : list B) :
  big_sum (fun a => big_sum (fun b => g a b) lb) la
  == big_sum (fun b => big_sum (fun a => g a b) la) lb.
Proof.
  induction la as [|a la IH]; simpl.
  - symmetry. by apply big_sum_zero.
  - rewrite IH. symmetry. apply big_sum_plus.
Qed.

(** ** The exported cost tables *)

Section CostTables.
Import financials financials_post_solve.





Lemma py_div_inv (a b q : Q) : py_div a b = Ok q -> ~ b == 0 /\ q = a / b.
Proof.
  unfold py_div. destruct (Qeq_bool b 0) eqn:Hb; [discriminate|].
  intros Hq. injection Hq as <-. split; [by apply Qeq_bool_neq | reflexivity].
Qed.

Lemma normalized_dat_row_inv (m : model) (p : string) (row : electricity_cost) :
  normalized_dat_row m p = Ok row ->
  exists b,
    financials.PERIOD row = p /\
    SystemCostPerPeriod m p = Ok (SystemCostPerPeriod_NPV row) /\
    at1 m "bring_annual_costs_to_base_year" p = Ok b /\
    system_demand m p = Ok (SystemDemand_MWh row) /\
    ~ b == 0 /\
    ~ SystemDemand_MWh row == 0 /\
    SystemCostPerPeriod_Real row * b == SystemCostPerPeriod_NPV row /\
    EnergyCostReal_per_MWh row * SystemDemand_MWh row == SystemCostPerPeriod_Real row.
Proof.
  unfold normalized_dat_row, energy_cost_real_per_mwh, system_cost_real.
  destruct (SystemCostPerPeriod m p) as [c|] eqn:Hc; [|discriminate].
  rewrite !bind_Ok.
  destruct (at1 m "bring_annual_costs_to_base_year" p) as [b|] eqn:Hb;
    [|discriminate].
  rewrite !bind_Ok.
  destruct (py_div c b) as [real|] eqn:Hreal; [|discriminate].
  rewrite !bind_Ok.
  destruct (system_demand m p) as [d|] eqn:Hd; [|discriminate].
  rewrite !bind_Ok.
  destruct (py_div real d) as [per_mwh|] eqn:Hper; [|discriminate].
  rewrite !bind_Ok. intros Hrow. injection Hrow as <-. simpl.
  apply py_div_inv in Hreal as [Hb0 ->]. apply py_div_inv in Hper as [Hd0 ->].
  exists b. do 6 (split; [done|]). split; (field; repeat split; assumption).
Qed.

(** X12: when electricity_cost.csv is produced it has one row per period,
    in the order of the periods; in each row the real cost times the
    discount factor of the period is the NPV, which is the system cost of
    the period, and the cost per MWh times the demand is the real cost. *)
Theorem electricity_cost_table_is_consistent (m : model)
    (rows : list electricity_cost) :
  normalized_dat m = Ok rows ->
  map financials.PERIOD rows = PERIODS m /\
  Forall
    (fun row =>
       exists b,
         at1 m "bring_annual_costs_to_base_year" (financials.PERIOD row) = Ok b /\
         SystemCostPerPeriod m (financials.PERIOD row)
         = Ok (SystemCostPerPeriod_NPV row) /\
         SystemCostPerPeriod_Real row * b == SystemCostPerPeriod_NPV row /\
         EnergyCostReal_per_MWh row * SystemDemand_MWh row
         == SystemCostPerPeriod_Real row)
    rows.
Proof.
  unfold normalized_dat. generalize (PERIODS m). intros periods.
  revert rows. induction periods as [|p periods IH]; intros rows Hrows;
    simpl in Hrows.
  - injection Hrows as <-. split; [reflexivity | constructor].
  - destruct (normalized_dat_row m p) as [row|] eqn:Hrow; [|discriminate].
    rewrite bind_Ok in Hrows.
    destruct (normalized_dat_rows m periods) as [rest|] eqn:Hrest; [|discriminate].
    rewrite bind_Ok in Hrows. injection Hrows as <-.
    destruct (IH rest eq_refl) as [Hperiods Hall].
    destruct (normalized_dat_row_inv m p row Hrow)
      as (b & Hp & Hnpv & Hb & _ & _ & _ & Hreal & Hper).
    split.
    + simpl. by rewrite Hp, Hperiods.
    + constructor; [|exact Hall]. exists b. rewrite Hp. by repeat split.
Qed.

Lemma electricity_cost_table_is_consistent_witness :
  map financials.PERIOD
      [ElectricityCost "P1" 31280 31280 (31280 # 876000) 876000]
  = PERIODS generation_instance /\
  Forall
    (fun row =>
       exists b,
         at1 generation_instance "bring_annual_costs_to_base_year"
             (financials.PERIOD row) = Ok b /\
         SystemCostPerPeriod generation_instance (financials.PERIOD row)
         = Ok (SystemCostPerPeriod_NPV row) /\
         SystemCostPerPeriod_Real row * b == SystemCostPerPeriod_NPV row /\
         EnergyCostReal_per_MWh row * SystemDemand_MWh row
         == SystemCostPerPeriod_Real row)
    [ElectricityCost "P1" 31280 31280 (31280 # 876000) 876000].
Proof.
  apply (electricity_cost_table_is_consistent generation_instance).
  vm_compute. reflexivity.
Defined.

End CostTables.

(** ** The load balance table *)

Section LoadBalanceTable.
Import load_zones_post_solve.



End LoadBalanceTable.

(** ** What construction guarantees *)

Section ConstructedDemand.
Import load_zones.

Lemma construct_demand_inv (m m' : model) :
  construct_components m = Ok m' ->
  exists total,
    init_param "zone_total_demand_in_period_mwh"
      (fun zp => zone_total_demand_in_period_mwh_rule m (fst zp) (snd zp))
      (cross (LOAD_ZONES m) (PERIODS m)) ∅ = Ok total /\
    m' = set_indexed2 m
           (<["zone_total_demand_in_period_mwh" := total]> (indexed2 m)).
Proof.
  unfold construct_components.
  destruct (validate_param _ _) as [[]|]; [|discriminate]. rewrite bind_Ok.
  destruct (min_data_check _ _) as [[]|]; [|discriminate]. rewrite bind_Ok.
  destruct (init_param _ _ _ _) as [total|]; [|discriminate]. rewrite bind_Ok.
  intros Hm. injection Hm as <-. by exists total.
Qed.

(** X14: a constructed instance holds, for every zone and period, the value
    the rule returned on the inputs, and that value is not negative; the
    registries and the components with one index are left as they were. *)
Theorem constructed_demand_totals_are_nonnegative (m m' : model) :
  construct_components m = Ok m' ->
  lists m' = lists m /\
  indexed1 m' = indexed1 m /\
  (forall p, p ∈ PERIODS m -> total_demand_nonnegative m' p = true) /\
  (forall z p, z ∈ LOAD_ZONES m -> p ∈ PERIODS m ->
     exists v,
       zone_total_demand_in_period_mwh_rule m z p = Ok v /\
       at2 m' "zone_total_demand_in_period_mwh" (z, p) = Ok v /\
       0 <= v).
Proof.
  intros Hm. destruct (construct_demand_inv m m' Hm) as (total & Hinit & ->).
  do 2 (split; [reflexivity|]).
  assert (forall z p, z ∈ LOAD_ZONES m -> p ∈ PERIODS m ->
            exists v,
              zone_total_demand_in_period_mwh_rule m z p = Ok v /\
              at2 (set_indexed2 m
                     (<["zone_total_demand_in_period_mwh" := total]> (indexed2 m)))
                  "zone_total_demand_in_period_mwh" (z, p) = Ok v /\
              0 <= v) as Hvalues.
  { intros z p Hz Hp.
    destruct (init_param_inv _ _ _ _ _ Hinit (z, p)) as [Hnn Hlookup].
    { by apply elem_of_cross. }
    simpl in Hnn, Hlookup. destruct (nonnegative_ok _ Hnn) as [Hrule Hpos].
    eexists. split; [exact Hrule|]. split; [|exact Hpos].
    by rewrite at2_stored, Hlookup. }
  split; [|exact Hvalues].
  intros p Hp. unfold total_demand_nonnegative. apply forallb_forall.
  intros z Hz. apply list_elem_of_In in Hz.
  destruct (Hvalues z p Hz Hp) as (v & _ & -> & Hpos). simpl.
  by apply Qle_bool_iff.
Qed.

Lemma constructed_demand_totals_are_nonnegative_witness :
  lists (instance_of (construct_components one_zone)) = lists one_zone /\
  indexed1 (instance_of (construct_components one_zone)) = indexed1 one_zone /\
  (forall p, p ∈ PERIODS one_zone ->
     total_demand_nonnegative (instance_of (construct_components one_zone)) p = true) /\
  (forall z p, z ∈ LOAD_ZONES one_zone -> p ∈ PERIODS one_zone ->
     exists v,
       zone_total_demand_in_period_mwh_rule one_zone z p = Ok v /\
       at2 (instance_of (construct_components one_zone))
           "zone_total_demand_in_period_mwh" (z, p) = Ok v /\
       0 <= v).
Proof.
  apply (constructed_demand_totals_are_nonnegative one_zone
           (instance_of (construct_components one_zone))).
  vm_compute. reflexivity.
Defined.

(** X15: a negative demand anywhere in loads.csv stops the construction
    with the domain error of [zone_demand_mw], before the data check. *)
Theorem negative_demand_is_rejected (m : model) (data : gmap (string * string) Q)
    (z t : string) (d : Q) :
  indexed2 m !! "zone_demand_mw" = Some data ->
  data !! (z, t) = Some d ->
  d < 0 ->
  construct_components m = Err (DomainError "zone_demand_mw").
Proof.
  intros Hdata Hd Hneg. unfold construct_components.
  rewrite Hdata. cbn [default from_option id].
  assert (validate_param "zone_demand_mw" data = Err (DomainError "zone_demand_mw"))
    as ->; [|reflexivity].
  unfold validate_param.
  destruct (forallb _ _) eqn:Hall; [|reflexivity].
  apply elem_of_map_to_list in Hd.
  pose proof (forallb_elem_of (fun kv => Qle_bool 0 (snd kv)) _ _ Hall Hd) as Hle.
  simpl in Hle. apply Qle_bool_imp_le in Hle. lra.
Qed.

Lemma negative_demand_is_rejected_witness :
  construct_components
    (set_indexed2 one_zone
       (<["zone_demand_mw" := {[("Z1", "T1") := -100]}]> (indexed2 one_zone)))
  = Err (DomainError "zone_demand_mw").
Proof.
  apply (negative_demand_is_rejected
           (set_indexed2 one_zone
              (<["zone_demand_mw" := {[("Z1", "T1") := -100]}]> (indexed2 one_zone)))
           {[("Z1", "T1") := -100]} "Z1" "T1" (-100)).
  - vm_compute. reflexivity.
  - vm_compute. reflexivity.
  - reflexivity.
Defined.

End ConstructedDemand.

Section ConstructedFactors.
Import financials.

Lemma construct_factors_inv (m m' : model) :
  construct_components m = Ok m' ->
  exists annual timepoint,
    okb (validate_scalar "discount_rate" (discount_rate m)) = true /\
    init_param "bring_annual_costs_to_base_year"
      (bring_annual_costs_to_base_year_rule m) (PERIODS m) ∅ = Ok annual /\
    m' = set_indexed1
           (set_indexed1 m
              (<["bring_annual_costs_to_base_year" := annual]> (indexed1 m)))
           (<["bring_timepoint_costs_to_base_year" := timepoint]>
              (<["bring_annual_costs_to_base_year" := annual]> (indexed1 m))).
Proof.
  unfold construct_components.
  destruct (validate_scalar "base_financial_year" _) as [[]|]; [|discriminate].
  rewrite bind_Ok.
  destruct (validate_scalar "dollar_year" _) as [[]|]; [|discriminate].
  rewrite bind_Ok.
  destruct (validate_scalar "discount_rate" _) as [[]|] eqn:Hrate; [|discriminate].
  rewrite bind_Ok.
  destruct (min_data_check _ _) as [[]|]; [|discriminate]. rewrite bind_Ok.
  destruct (init_param "bring_annual_costs_to_base_year" _ _ _) as [annual|];
    [|discriminate].
  rewrite bind_Ok. cbv zeta.
  destruct (init_param "bring_timepoint_costs_to_base_year" _ _ _) as [timepoint|];
    [|discriminate].
  rewrite bind_Ok. intros Hm. injection Hm as <-.
  by exists annual, timepoint.
Qed.

(** X17: a negative discount rate in financials.csv stops the construction
    with the domain error of [discount_rate]. *)
Theorem negative_discount_rate_is_rejected (m : model) (by_ dy : Z) (dr : Q) :
  base_financial_year m = Some by_ -> (0 <= by_)%Z ->
  dollar_year m = Some dy -> (0 <= dy)%Z ->
  discount_rate m = Some dr -> dr < 0 ->
  construct_components m = Err (DomainError "discount_rate").
Proof.
  intros Hby Hby0 Hdy Hdy0 Hdr Hneg. unfold construct_components.
  rewrite Hby, Hdy, Hdr. cbn [fmap option_fmap option_map validate_scalar].
  rewrite (within_nonnegative _ (inject_Z by_)) by (by apply inject_Z_nonneg).
  rewrite (within_nonnegative _ (inject_Z dy)) by (by apply inject_Z_nonneg).
  rewrite (within_negative _ dr) by exact Hneg. reflexivity.
Qed.

Lemma negative_discount_rate_is_rejected_witness :
  construct_components
    (Model ["P1"] ["T1"] ∅ ∅ ∅ [] (Some 2020%Z) (Some 2020%Z) (Some (- (7 # 100)))
           ∅ ∅ ∅ [])
  = Err (DomainError "discount_rate").
Proof.
  apply (negative_discount_rate_is_rejected
           (Model ["P1"] ["T1"] ∅ ∅ ∅ [] (Some 2020%Z) (Some 2020%Z)
                  (Some (- (7 # 100))) ∅ ∅ ∅ [])
           2020 2020 (- (7 # 100))).
  - reflexivity.
  - lia.
  - reflexivity.
  - lia.
  - reflexivity.
  - reflexivity.
Defined.

(** X18: without discounting the factor of a period is its length in
    years, whatever the dollar year and the base year; and when the dollar
    year is the base year the factor is the annuity factor alone. *)
Theorem discount_factor_special_cases (m : model) (p : string)
    (dr : Q) (dy by_ n : Z) :
  discount_rate m = Some dr -> dollar_year m = Some dy ->
  base_financial_year m = Some by_ -> period_length_years m !! p = Some n ->
  0 <= dr ->
  exists v,
    bring_annual_costs_to_base_year_rule m p = Ok v /\
    (dr == 0 -> v == inject_Z n) /\
    (dy = by_ ->
     exists a, uniform_series_to_present_value dr n = Ok a /\ v == a).
Proof.
  intros Hdr Hdy Hby Hn Hpos. pose proof (growth_factor_nonzero dr Hpos) as Hq.
  destruct (Qeq_dec dr 0) as [Hz|Hnz].
  - exists (inject_Z n * (1 + dr) ^ (- (dy - by_))). split; [|split].
    + unfold bring_annual_costs_to_base_year_rule.
      rewrite Hdr, Hdy, Hby, Hn. simpl.
      rewrite (uniform_series_zero_rate dr n Hz). simpl.
      unfold future_to_present_value. by rewrite py_pow_ok.
    + intros _. assert (1 + dr == 1) as -> by lra. rewrite Qpower_1. ring.
    + intros ->. exists (inject_Z n).
      split; [by apply uniform_series_zero_rate|].
      replace (- (by_ - by_))%Z with 0%Z by lia. simpl. ring.
  - exists ((1 - (1 + dr) ^ (- n)) / dr * (1 + dr) * (1 + dr) ^ (- (dy - by_))).
    assert (uniform_series_to_present_value dr n
            = Ok ((1 - (1 + dr) ^ (- n)) / dr * (1 + dr))) as Ha
      by (apply uniform_series_nonzero_rate; [exact Hnz | by left]).
    split; [|split].
    + unfold bring_annual_costs_to_base_year_rule.
      rewrite Hdr, Hdy, Hby, Hn. simpl. rewrite Ha. simpl.
      unfold future_to_present_value. by rewrite py_pow_ok.
    + intros Hz. contradiction.
    + intros ->. eexists. split; [exact Ha|].
      replace (- (by_ - by_))%Z with 0%Z by lia. simpl. ring.
Qed.

Lemma discount_factor_special_cases_witness :
  exists v,
    bring_annual_costs_to_base_year_rule one_zone "P1" = Ok v /\
    (0 == 0 -> v == inject_Z 1) /\
    (2020%Z = 2020%Z ->
     exists a, uniform_series_to_present_value 0 1 = Ok a /\ v == a).
Proof.
  apply (discount_factor_special_cases one_zone "P1" 0 2020 2020 1);
    try reflexivity.
  unfold Qle. simpl. lia.
Defined.

End ConstructedFactors.

(** ** The demand of the system *)

Section SystemDemand.

Lemma sum_over_ok_val {A : Type} (f : A -> result Q) (l : list A) (s : Q) :
  sum_over f l = Ok s -> s == big_sum (fun a => val (f a)) l.
Proof.
  intros Hs.
  destruct (sum_over_val f l) as (s' & Hs' & Hsum).
  { apply forallb_forall. intros a Ha. apply list_elem_of_In in Ha.
    by apply (sum_from_ok_inv f l 0 s Hs). }
  rewrite Hs in Hs'. injection Hs' as <-. exact Hsum.
Qed.

Lemma demand_term_val (m : model) (z t : string) :
  val (d ← at2 m "zone_demand_mw" (z, t);
       w ← at1 m "tp_weight" t;
       Ok (d * w))
  == val (at2 m "zone_demand_mw" (z, t)) * val (at1 m "tp_weight" t)
  \/ okb (d ← at2 m "zone_demand_mw" (z, t);
          w ← at1 m "tp_weight" t;
          Ok (d * w)) = false.
Proof.
  destruct (at2 m "zone_demand_mw" (z, t)) as [d|]; [|by right].
  destruct (at1 m "tp_weight" t) as [w|]; [|by right].
  left. reflexivity.
Qed.

(** X19: in a constructed instance the demand of the system over a period,
    the sum of the totals of the zones, is the sum over the timepoints of
    the period of the load of all zones times the weight of the
    timepoint. *)
Theorem system_demand_is_weighted_system_load (m m' : model) (p : string)
    (tps : list string) :
  load_zones.construct_components m = Ok m' ->
  p ∈ PERIODS m ->
  TPS_IN_PERIOD m !! p = Some tps ->
  exists d,
    financials.system_demand m' p = Ok d /\
    d == big_sum
           (fun t =>
              big_sum (fun z => val (at2 m "zone_demand_mw" (z, t))) (LOAD_ZONES m)
              * val (at1 m "tp_weight" t))
           tps.
Proof.
  intros Hm Hp Htps.
  destruct (construct_demand_inv m m' Hm) as (total & Hinit & ->).
  destruct (sum_over_spec
              (fun z =>
                 at2 (set_indexed2 m
                        (<["zone_total_demand_in_period_mwh" := total]> (indexed2 m)))
                     "zone_total_demand_in_period_mwh" (z, p))
              (fun z =>
                 big_sum
                   (fun t =>
                      val (at2 m "zone_demand_mw" (z, t)) * val (at1 m "tp_weight" t))
                   tps)
              (LOAD_ZONES m)) as (d & Hd & Hsum).
  { intros z Hz.
    destruct (init_param_inv _ _ _ _ _ Hinit (z, p)) as [Hnn Hlookup].
    { by apply elem_of_cross. }
    simpl in Hnn, Hlookup. destruct (nonnegative_ok _ Hnn) as [Hrule _].
    eexists. split; [by rewrite at2_stored, Hlookup|].
    revert Hrule. generalize (val (load_zones.zone_total_demand_in_period_mwh_rule m z p)).
    intros v Hrule. unfold load_zones.zone_total_demand_in_period_mwh_rule in Hrule.
    rewrite Htps in Hrule. simpl in Hrule.
    rewrite (sum_over_ok_val _ _ _ Hrule). apply big_sum_ext. intros t Ht.
    destruct (demand_term_val m z t) as [Heq|Hfail]; [exact Heq|].
    rewrite (sum_from_ok_inv _ _ _ _ Hrule t Ht) in Hfail. discriminate. }
  exists d. split; [exact Hd|]. rewrite Hsum.
  rewrite (big_sum_swap
             (fun z t => val (at2 m "zone_demand_mw" (z, t)) * val (at1 m "tp_weight" t))).
  apply big_sum_ext. intros t _. by rewrite big_sum_scale.
Qed.

Lemma system_demand_is_weighted_system_load_witness :
  exists d,
    financials.system_demand
      (instance_of (load_zones.construct_components one_zone)) "P1" = Ok d /\
    d == big_sum
           (fun t =>
              big_sum (fun z => val (at2 one_zone "zone_demand_mw" (z, t)))
                      (LOAD_ZONES one_zone)
              * val (at1 one_zone "tp_weight" t))
           ["T1"].
Proof.
  apply (system_demand_is_weighted_system_load one_zone
           (instance_of (load_zones.construct_components one_zone)) "P1" ["T1"]).
  - vm_compute. reflexivity.
  - compute_done.
  - vm_compute. reflexivity.
Defined.

End SystemDemand.

(** ** The modules are independent *)

Section ModuleIndependence.

Lemma sum_from_ext {A : Type} (f g : A -> result Q) (l : list A) : forall acc,
  (forall a, f a = g a) -> sum_from acc f l = sum_from acc g l.
Proof.
  induction l as [|a l IH]; intros acc Hfg; simpl; [reflexivity|].
  rewrite Hfg. destruct (g a); simpl; [by apply IH | reflexivity].
Qed.

Lemma init_param_ext {K : Type} `{Countable K} (name : string)
    (rule rule' : K -> result Q) (index : list K) : forall acc,
  (forall k, rule k = rule' k) ->
  init_param name rule index acc = init_param name rule' index acc.
Proof.
  induction index as [|k ks IH]; intros acc Hrule; simpl; [reflexivity|].
  rewrite Hrule. destruct (rule' k); simpl; [|reflexivity].
  destruct (within_NonNegativeReals name a); simpl; [by apply IH | reflexivity].
Qed.

(** The construction of the financial module does not read the components
    with two indices and carries them along. *)
Lemma financial_construction_frame (m m' : model)
    (x : gmap string (gmap (string * string) Q)) :
  financials.construct_components m = Ok m' ->
  financials.construct_components (set_indexed2 m x) = Ok (set_indexed2 m' x).
Proof.
  unfold financials.construct_components.
  change (base_financial_year (set_indexed2 m x)) with (base_financial_year m).
  change (dollar_year (set_indexed2 m x)) with (dollar_year m).
  change (discount_rate (set_indexed2 m x)) with (discount_rate m).
  destruct (validate_scalar "base_financial_year" _) as [[]|]; [|discriminate].
  rewrite !bind_Ok.
  destruct (validate_scalar "dollar_year" _) as [[]|]; [|discriminate].
  rewrite !bind_Ok.
  destruct (validate_scalar "discount_rate" _) as [[]|]; [|discriminate].
  rewrite !bind_Ok.
  change (min_data_check (set_indexed2 m x) ["base_financial_year"; "discount_rate"])
    with (min_data_check m ["base_financial_year"; "discount_rate"]).
  destruct (min_data_check m _) as [[]|]; [|discriminate]. rewrite !bind_Ok.
  change (init_param "bring_annual_costs_to_base_year"
            (financials.bring_annual_costs_to_base_year_rule (set_indexed2 m x))
            (PERIODS (set_indexed2 m x)) ∅)
    with (init_param "bring_annual_costs_to_base_year"
            (financials.bring_annual_costs_to_base_year_rule m) (PERIODS m) ∅).
  destruct (init_param "bring_annual_costs_to_base_year" _ _ _) as [annual|];
    [|discriminate].
  rewrite !bind_Ok. cbv zeta.
  match goal with
  | |- init_param ?n ?r ?i ?a ≫= _ = _ -> init_param ?n' ?r' ?i' ?a' ≫= _ = _ =>
      change (init_param n' r' i' a') with (init_param n r i a)
  end.
  destruct (init_param "bring_timepoint_costs_to_base_year" _ _ _) as [timepoint|];
    [|discriminate].
  rewrite !bind_Ok. intros Hm. injection Hm as <-. reflexivity.
Qed.

(** The construction of the load zones reads one component with one index,
    the weights of the timepoints, and carries the others along. *)
Lemma load_zone_construction_frame (m m' : model) (y : gmap string (gmap string Q)) :
  y !! "tp_weight" = indexed1 m !! "tp_weight" ->
  load_zones.construct_components m = Ok m' ->
  load_zones.construct_components (set_indexed1 m y) = Ok (set_indexed1 m' y).
Proof.
  intros Hy. unfold load_zones.construct_components.
  change (indexed2 (set_indexed1 m y)) with (indexed2 m).
  destruct (validate_param "zone_demand_mw" _) as [[]|]; [|discriminate].
  rewrite !bind_Ok.
  change (min_data_check (set_indexed1 m y) ["LOAD_ZONES"; "zone_demand_mw"])
    with (min_data_check m ["LOAD_ZONES"; "zone_demand_mw"]).
  destruct (min_data_check m _) as [[]|]; [|discriminate]. rewrite !bind_Ok.
  change (LOAD_ZONES (set_indexed1 m y)) with (LOAD_ZONES m).
  change (PERIODS (set_indexed1 m y)) with (PERIODS m).
  rewrite (init_param_ext _
             (fun zp => load_zones.zone_total_demand_in_period_mwh_rule
                          (set_indexed1 m y) (fst zp) (snd zp))
             (fun zp => load_zones.zone_total_demand_in_period_mwh_rule
                          m (fst zp) (snd zp))).
  - destruct (init_param _ _ _ _) as [total|]; [|discriminate].
    rewrite !bind_Ok. intros Hm. injection Hm as <-. reflexivity.
  - intros [z p]. unfold load_zones.zone_total_demand_in_period_mwh_rule.
    cbn [fst snd].
    change (TPS_IN_PERIOD (set_indexed1 m y)) with (TPS_IN_PERIOD m).
    destruct (TPS_IN_PERIOD m !! p) as [tps|]; [|reflexivity]. simpl.
    unfold sum_over. apply sum_from_ext. intros t.
    change (at2 (set_indexed1 m y)) with (at2 m).
    unfold at1. simpl. by rewrite Hy.
Qed.

(** X20: the two modules can be constructed in either order: when each
    construction succeeds on the inputs, constructing one after the other
    succeeds in both orders and gives the same instance. *)
Theorem construction_order_is_irrelevant (m mf ml : model) :
  financials.construct_components m = Ok mf ->
  load_zones.construct_components m = Ok ml ->
  exists both,
    load_zones.construct_components mf = Ok both /\
    financials.construct_components ml = Ok both.
Proof.
  intros Hf Hl.
  destruct (construct_factors_inv m mf Hf) as (annual & timepoint & _ & _ & Hmf).
  destruct (construct_demand_inv m ml Hl) as (total & _ & Hml).
  set (x := <["zone_total_demand_in_period_mwh" := total]> (indexed2 m)) in *.
  set (y := <["bring_timepoint_costs_to_base_year" := timepoint]>
              (<["bring_annual_costs_to_base_year" := annual]> (indexed1 m))) in *.
  exists (set_indexed2 mf x). split.
  - assert (mf = set_indexed1 m y) as Hmf' by (rewrite Hmf; reflexivity).
    rewrite Hmf'.
    rewrite (load_zone_construction_frame m ml y).
    + rewrite Hml. reflexivity.
    + unfold y. by rewrite !lookup_insert_ne by discriminate.
    + exact Hl.
  - rewrite Hml. by apply financial_construction_frame.
Qed.

Lemma construction_order_is_irrelevant_witness :
  exists both,
    load_zones.construct_components
      (instance_of (financials.construct_components ten_year_inputs)) = Ok both /\
    financials.construct_components
      (instance_of (load_zones.construct_components ten_year_inputs)) = Ok both.
Proof.
  apply (construction_order_is_irrelevant ten_year_inputs).
  - vm_compute. reflexivity.
  - vm_compute. reflexivity.
Defined.

End ModuleIndependence.

(** ** The objective and the factors of the timepoints *)

Section TimepointFactors.
Import financials.

Lemma construct_timepoint_factors_inv (m m' : model) :
  construct_components m = Ok m' ->
  exists annual timepoint,
    init_param "bring_timepoint_costs_to_base_year"
      (bring_timepoint_costs_to_base_year_rule
         (set_indexed1 m
            (<["bring_annual_costs_to_base_year" := annual]> (indexed1 m))))
      (TIMEPOINTS m) ∅ = Ok timepoint /\
    m' = set_indexed1
           (set_indexed1 m
              (<["bring_annual_costs_to_base_year" := annual]> (indexed1 m)))
           (<["bring_timepoint_costs_to_base_year" := timepoint]>
              (<["bring_annual_costs_to_base_year" := annual]> (indexed1 m))).
Proof.
  unfold construct_components.
  destruct (validate_scalar "base_financial_year" _) as [[]|]; [|discriminate].
  rewrite bind_Ok.
  destruct (validate_scalar "dollar_year" _) as [[]|]; [|discriminate].
  rewrite bind_Ok.
  destruct (validate_scalar "discount_rate" _) as [[]|]; [|discriminate].
  rewrite bind_Ok.
  destruct (min_data_check _ _) as [[]|]; [|discriminate]. rewrite bind_Ok.
  destruct (init_param "bring_annual_costs_to_base_year" _ _ _) as [annual|];
    [|discriminate].
  rewrite bind_Ok. cbv zeta.
  destruct (init_param "bring_timepoint_costs_to_base_year" _ _ _)
    as [timepoint|] eqn:Hinit; [|discriminate].
  rewrite bind_Ok. intros Hm. injection Hm as <-.
  by exists annual, timepoint.
Qed.

(** X21: the factor of a timepoint does what its documentation says: in a
    constructed instance whose periods own their timepoints, the system
    cost of a period is the yearly costs times the factor of the period
    plus the hourly costs of its timepoints, each times
    [bring_timepoint_costs_to_base_year] of the timepoint. *)
Theorem system_cost_by_timepoint_factors (m m' : model) (p : string)
    (tps : list string) :
  construct_components m = Ok m' ->
  TPS_IN_PERIOD m !! p = Some tps ->
  forallb
    (fun t => bool_decide (t ∈ TIMEPOINTS m) && bool_decide (tp_period m !! t = Some p))
    tps = true ->
  p ∈ PERIODS m ->
  cost_components_defined m' p = true ->
  exists v,
    SystemCostPerPeriod m' p = Ok v /\
    v == big_sum
           (fun c => val (at1 m' c p) * val (at1 m' "bring_annual_costs_to_base_year" p))
           (default [] (lists m' !! "Cost_Components_Per_Period"))
         + big_sum
             (fun t =>
                big_sum
                  (fun c =>
                     val (at1 m' c t)
                     * val (at1 m' "bring_timepoint_costs_to_base_year" t))
                  (default [] (lists m' !! "Cost_Components_Per_TP")))
             tps.
Proof.
  intros Hm Htps Hown Hp Hdef.
  destruct (sys_costs_of_period m' p Hdef) as (v & Hv & Hspec).
  exists v. split.
  { unfold SystemCostPerPeriod.
    destruct (construct_timepoint_factors_inv m m' Hm) as (? & ? & _ & ->).
    change (PERIODS (set_indexed1 _ _)) with (PERIODS m).
    by rewrite bool_decide_eq_true_2 by exact Hp. }
  rewrite Hspec. unfold spec.annual_costs, spec.tp_costs.
  set (b := val (at1 m' "bring_annual_costs_to_base_year" p)).
  assert (TPS_IN_PERIOD m' !! p = Some tps) as ->.
  { destruct (construct_timepoint_factors_inv m m' Hm) as (? & ? & _ & ->).
    exact Htps. }
  simpl.
  assert (forall t, t ∈ tps ->
            val (at1 m' "bring_timepoint_costs_to_base_year" t)
            == b * val (at1 m' "tp_weight_in_year" t)) as Hfactor.
  { intros t Ht. unfold b.
    destruct (construct_timepoint_factors_inv m m' Hm)
      as (annual & timepoint & Hinit & ->).
    pose proof (forallb_elem_of _ _ _ Hown Ht) as Hone. simpl in Hone.
    apply andb_prop in Hone as [Hin Hperiod].
    apply bool_decide_eq_true_1 in Hin. apply bool_decide_eq_true_1 in Hperiod.
    destruct (init_param_inv _ _ _ _ _ Hinit t Hin) as [Hnn Hlookup].
    destruct (nonnegative_ok _ Hnn) as [Hrule _].
    revert Hrule Hlookup.
    generalize (val (bring_timepoint_costs_to_base_year_rule
                       (set_indexed1 m
                          (<["bring_annual_costs_to_base_year" := annual]>
                             (indexed1 m))) t)).
    intros x Hrule Hlookup.
    assert (at1 (set_indexed1
                   (set_indexed1 m
                      (<["bring_annual_costs_to_base_year" := annual]> (indexed1 m)))
                   (<["bring_timepoint_costs_to_base_year" := timepoint]>
                      (<["bring_annual_costs_to_base_year" := annual]> (indexed1 m))))
                "bring_timepoint_costs_to_base_year" t = Ok x) as ->.
    { unfold at1. cbn [indexed1 set_indexed1].
      rewrite lookup_insert_eq. simpl. by rewrite Hlookup. }
    revert Hrule.
    unfold bring_timepoint_costs_to_base_year_rule, at1.
    cbn [indexed1 set_indexed1 tp_period].
    rewrite !(lookup_insert_ne _ "bring_timepoint_costs_to_base_year")
      by discriminate.
    rewrite Hperiod. cbn [from_option]. rewrite bind_Ok.
    match goal with
    | |- _ -> _ == val ?rb * val ?rw =>
        destruct rb as [b0|]; [|discriminate];
        destruct rw as [w|]; [|discriminate]
    end.
    simpl. intros Hx. injection Hx as <-. reflexivity. }
  rewrite Qmult_plus_distr_l, <- !big_sum_scale.
  apply Qplus_comp; [reflexivity|].
  apply big_sum_ext. intros t Ht. rewrite <- big_sum_scale.
  apply big_sum_ext. intros c _. rewrite (Hfactor t Ht). ring.
Qed.

Lemma system_cost_by_timepoint_factors_witness :
  exists v,
    SystemCostPerPeriod two_cost_instance "P1" = Ok v /\
    v == big_sum
           (fun c =>
              val (at1 two_cost_instance c "P1")
              * val (at1 two_cost_instance "bring_annual_costs_to_base_year" "P1"))
           (default [] (lists two_cost_instance !! "Cost_Components_Per_Period"))
         + big_sum
             (fun t =>
                big_sum
                  (fun c =>
                     val (at1 two_cost_instance c t)
                     * val (at1 two_cost_instance
                                "bring_timepoint_costs_to_base_year" t))
                  (default [] (lists two_cost_instance !! "Cost_Components_Per_TP")))
             ["T1"].
Proof.
  apply (system_cost_by_timepoint_factors two_cost_instance two_cost_instance
           "P1" ["T1"]).
  - vm_compute. reflexivity.
  - vm_compute. reflexivity.
  - vm_compute. reflexivity.
  - compute_done.
  - vm_compute. reflexivity.
Defined.

End TimepointFactors.
